(** * Iris hyperparameter-tuning notebook: a shallow embedding

    The notebook [amazon-sagemaker-amt-xgboost-hyperparameter-tuning.ipynb]
    is a linear script of ten code cells.  Each cell is embedded below under
    the names the notebook uses.  The library calls the cells make (the
    splitter of scikit-learn, the data frame of pandas, the path join of the
    Python standard library, the object store and the tuning service) are
    modelled by what they compute on the arguments the notebook passes;
    what is opaque to the notebook (the seeded generator, the formatting of a
    double as text, the content of the dataset, the ambient account) is a
    parameter.  Python's own text of a double, which the export is read back
    against, is embedded in [PyFloat].  The calls that reach outside the
    process (the file system, the object store, the tuning service) are
    modelled where they succeed; what they raise otherwise is not part of
    the model, and the statements about them are about runs in which they
    return.  The [print] and [head] calls only write to the output of a
    cell and are left out. *)

From Stdlib Require Import ZArith List String Ascii Permutation Lia Bool.
From Stdlib Require Import Floats.SpecFloat.
From stdpp Require Import base option list gmap strings pretty.

Local Open Scope string_scope.
Local Open Scope list_scope.
Local Open Scope Z_scope.

(** ** Python exceptions raised on the paths the notebook can take *)

Inductive exn : Type :=
| ValueError
| OverflowError
| IndexError
| FileNotFoundError (path : string).

#[global] Instance exn_eq_dec : EqDecision exn.
Proof. solve_decision. Defined.

(** ** Python floats: IEEE 754 binary64 *)

#[global] Instance spec_float_eq_dec : EqDecision spec_float.
Proof. solve_decision. Defined.

Module Float64.

Definition prec : Z := 53.
Definition emax : Z := 1024.

Definition is_finite (x : spec_float) : bool :=
  match x with
  | S754_zero _ | S754_finite _ _ _ => true
  | S754_infinity _ | S754_nan => false
  end.

(** [float(n)] for a Python int: the nearest double, [OverflowError] when
    the int is too large. *)
Definition of_int (n : Z) : exn + spec_float :=
  let x := binary_normalize prec emax n 0 false in
  if is_finite x then inr x else inl OverflowError.

Definition mul : spec_float -> spec_float -> spec_float := SFmul prec emax.
Definition div : spec_float -> spec_float -> spec_float := SFdiv prec emax.

(** [math.ceil]: the least integer not below the argument. *)
Definition ceil (x : spec_float) : exn + Z :=
  match x with
  | S754_zero _ => inr 0
  | S754_finite s m e =>
      let sm := if s then Z.neg m else Z.pos m in
      if 0 <=? e then inr (sm * 2 ^ e)
      else inr (- ((- sm) / 2 ^ (- e)))
  | S754_infinity _ => inl OverflowError
  | S754_nan => inl ValueError
  end.

(** The literals of the notebook: [0.2] is [0x1.999999999999ap-3], [0.5]
    is [0x1p-1]. *)
Definition lit_0_2 : spec_float := S754_finite false 7205759403792794 (-55).
Definition lit_0_5 : spec_float := S754_finite false 4503599627370496 (-53).
Definition lit_0 : spec_float := S754_zero false.
Definition lit_1 : spec_float := S754_finite false 4503599627370496 (-52).

Definition leb : spec_float -> spec_float -> bool := SFleb.

End Float64.

(** ** The error monad of the pure library calls *)

Definition exn_bind {A B : Type} (m : exn + A) (k : A -> exn + B) : exn + B :=
  match m with
  | inl e => inl e
  | inr a => k a
  end.

Fixpoint exn_mapM {A B : Type} (f : A -> exn + B) (l : list A) : exn + list B :=
  match l with
  | [] => inr []
  | a :: l' =>
      exn_bind (f a) (fun b =>
      exn_bind (exn_mapM f l') (fun bs => inr (b :: bs)))
  end.

(** ** pandas: a data frame of doubles

    A frame is its column names and its rows in order; a row carries its label
    in the frame's index and its cells. *)

Record DataFrame : Type := mkDataFrame {
  columns : list string;
  rows : list (nat * list spec_float)
}.

Definition index (df : DataFrame) : list nat := (rows df).*1.
Definition values (df : DataFrame) : list (list spec_float) := (rows df).*2.
Definition shape (df : DataFrame) : nat * nat :=
  (length (rows df), length (columns df)).

(** [pd.DataFrame(data=arr, columns=cols)] for a two-dimensional array: the
    index is [RangeIndex(len(arr))]; a width that differs from the number of
    column names is a [ValueError].  An array is the list of its rows, so the
    width of an array without rows is not represented: the statements about
    the frame built are for arrays of at least one row. *)
Definition pd_DataFrame (arr : list (list spec_float)) (cols : list string)
  : exn + DataFrame :=
  if forallb (fun r => Nat.eqb (length r) (length cols)) arr
  then inr (mkDataFrame cols (zip (seq 0 (length arr)) arr))
  else inl ValueError.

(** [df.iloc[indices]]: the rows at the given positions, in the order given,
    each with its label; a position out of range is an [IndexError]. *)
Definition iloc (df : DataFrame) (indices : list nat) : exn + DataFrame :=
  exn_bind
    (exn_mapM (fun i => match rows df !! i with
                        | Some r => inr r
                        | None => inl IndexError
                        end) indices)
    (fun rs => inr (mkDataFrame (columns df) rs)).

(** [np.c_[a, t]] for a two-dimensional array of doubles and a one-dimensional
    array of ints with as many entries as [a] has rows: [t] becomes the last
    column, its entries converted to doubles. *)
Definition np_c_ (a : list (list spec_float)) (t : list Z)
  : exn + list (list spec_float) :=
  if Nat.eqb (length a) (length t)
  then exn_bind (exn_mapM Float64.of_int t)
         (fun ts => inr (zip_with (fun r y => r ++ [y]) a ts))
  else inl ValueError.

(** What [load_iris()] returns, as far as the notebook reads it. *)
Record Bunch : Type := mkBunch {
  bunch_data : list (list spec_float);
  bunch_target : list Z;
  bunch_feature_names : list string
}.

(** ** scikit-learn: the sizes of a shuffle split *)

(** [_validate_shuffle_split(n_samples, test_size, train_size=None)] for a
    float [test_size]. *)
Definition validate_shuffle_split_float (n_samples : Z) (test_size : spec_float)
  : exn + (Z * Z) :=
  if Float64.leb test_size Float64.lit_0 || Float64.leb Float64.lit_1 test_size
  then inl ValueError
  else
    exn_bind (Float64.of_int n_samples) (fun n =>
    exn_bind (Float64.ceil (Float64.mul test_size n)) (fun n_test =>
    let n_train := n_samples - n_test in
    if n_samples <? n_train + n_test then inl ValueError
    else if n_train =? 0 then inl ValueError
    else inr (n_train, n_test))).

(** The same function for the integer sizes [ShuffleSplit] is built with. *)
Definition validate_shuffle_split_int (n_samples n_test n_train : Z)
  : exn + (Z * Z) :=
  if (n_samples <=? n_test) || (n_test <=? 0) then inl ValueError
  else if (n_samples <=? n_train) || (n_train <=? 0) then inl ValueError
  else if n_samples <? n_train + n_test then inl ValueError
  else if n_train =? 0 then inl ValueError
  else inr (n_train, n_test).

(** The sizes the two calls of cell 4 are checked against for a frame of [n]
    rows: a fifth, rounded up, is held out, and half of that, rounded up, is
    the test part. *)
Definition held_out_size (n : nat) : nat := ((n + 4) / 5)%nat.
Definition test_size_of (n : nat) : nat := ((held_out_size n + 1) / 2)%nat.

Definition sizes_as_expected (n : nat) : bool :=
  bool_decide
    (validate_shuffle_split_float (Z.of_nat n) Float64.lit_0_2
     = inr (Z.of_nat (n - held_out_size n), Z.of_nat (held_out_size n))) &&
  bool_decide
    (validate_shuffle_split_float (Z.of_nat (held_out_size n)) Float64.lit_0_5
     = inr (Z.of_nat (held_out_size n - test_size_of n),
            Z.of_nat (test_size_of n))).

(** ** Text: CSV rows and POSIX paths *)

Definition LF : ascii := "010"%char.
Definition CR : ascii := "013"%char.
Definition COMMA : ascii := ","%char.
Definition DQUOTE : ascii := "034"%char.

Fixpoint string_mem (c : ascii) (s : string) : bool :=
  match s with
  | EmptyString => false
  | String d s' => Ascii.eqb c d || string_mem c s'
  end.

Fixpoint string_join (sep : string) (l : list string) : string :=
  match l with
  | [] => EmptyString
  | [x] => x
  | x :: l' => x +:+ sep +:+ string_join sep l'
  end.

Fixpoint double_quotes (s : string) : string :=
  match s with
  | EmptyString => EmptyString
  | String c s' =>
      if Ascii.eqb c DQUOTE then String c (String c (double_quotes s'))
      else String c (double_quotes s')
  end.

(** A field as the [csv] writer emits it under [QUOTE_MINIMAL]. *)
Definition needs_quote (s : string) : bool :=
  string_mem COMMA s || string_mem DQUOTE s ||
  string_mem LF s || string_mem CR s.

Definition csv_field (s : string) : string :=
  if needs_quote s
  then String DQUOTE (double_quotes s) +:+ String DQUOTE EmptyString
  else s.

(** A record as the [csv] writer emits it: the fields joined by the
    delimiter; a record of one empty field is written quoted. *)
Definition csv_row (fields : list string) : string :=
  match fields with
  | [EmptyString] => String DQUOTE (String DQUOTE EmptyString)
  | _ => string_join (String COMMA EmptyString) (map csv_field fields)
  end.

(** The file: every record followed by the line terminator. *)
Fixpoint csv_text (records : list (list string)) : string :=
  match records with
  | [] => EmptyString
  | r :: records' => csv_row r +:+ String LF (csv_text records')
  end.

(** *** Reading delimiter-separated text back

    The reader the round trip is stated against: the text is cut at every
    line terminator, what follows the last terminator is dropped when it is
    empty, and a line is cut at every delimiter. *)
Fixpoint split_on (c : ascii) (s : string) : list string :=
  match s with
  | EmptyString => [EmptyString]
  | String d s' =>
      if Ascii.eqb d c then EmptyString :: split_on c s'
      else match split_on c s' with
           | [] => [String d EmptyString]
           | f :: fs => String d f :: fs
           end
  end.

Definition csv_lines (text : string) : list string :=
  let segments := split_on LF text in
  match last segments with
  | Some EmptyString => removelast segments
  | _ => segments
  end.

Definition csv_fields (line : string) : list string := split_on COMMA line.

(** A field the writer leaves as it is and the reader reads as one field. *)
Definition plain_field (s : string) : bool :=
  negb (needs_quote s) && negb (String.eqb s EmptyString).

Fixpoint ends_with_slash (s : string) : bool :=
  match s with
  | EmptyString => false
  | String c EmptyString => Ascii.eqb c "/"%char
  | String _ s' => ends_with_slash s'
  end.

(** [os.path.join(a, b)] of [posixpath]. *)
Definition os_path_join (a b : string) : string :=
  match b with
  | String "/"%char _ => b
  | _ =>
      match a with
      | EmptyString => b
      | _ => if ends_with_slash a then a +:+ b else a +:+ "/" +:+ b
      end
  end.

(** ** The text of a double

    What Python writes for a float and what it reads from a numeral.
    [repr] writes the shortest decimal that reads back as the double, as
    [float_repr_style = 'short'] has it, in positional notation or with an
    exponent; this is also the text [to_csv] writes for a finite cell of a
    [float64] column.  [float] reads a numeral as the double nearest to its
    value, ties to the even mantissa.  The numerals are those without white
    space and underscores, with [inf], [infinity] and [nan] in lower
    case. *)

Module PyFloat.

(** A finite double: a zero, or a mantissa and an exponent in the canonical
    form of binary64. *)
Definition valid (x : spec_float) : bool :=
  match x with
  | S754_zero _ => true
  | S754_finite _ m e => bounded 53 1024 m e
  | S754_infinity _ | S754_nan => false
  end.

(** [a / b] rounded to the nearest integer, ties to even. *)
Definition div_nearest_even (a b : Z) : Z :=
  let q := a / b in
  match 2 * (a mod b) ?= b with
  | Lt => q
  | Gt => q + 1
  | Eq => if Z.even q then q else q + 1
  end.

(** The double nearest to [n / d], for [n >= 0] and [d > 0], with the sign
    [s]: a mantissa of 53 bits, or fewer at the least exponent -1074, and
    infinity above the greatest exponent 971. *)
Definition of_ratio (s : bool) (n d : Z) : spec_float :=
  if n =? 0 then S754_zero s
  else
    let l := Z.log2 (n * 2 ^ 1100 / d) - 1100 in
    let e := Z.max (l - 52) (-1074) in
    let m := div_nearest_even (n * 2 ^ Z.max (- e) 0) (d * 2 ^ Z.max e 0) in
    let e' := if m =? 2 ^ 53 then e + 1 else e in
    let m' := if m =? 2 ^ 53 then 2 ^ 52 else m in
    match m' with
    | Zpos p => if 971 <? e' then S754_infinity s else S754_finite s p e'
    | _ => S754_zero s
    end.

(** The double nearest to [D * 10 ^ k]. *)
Definition of_decimal (s : bool) (D k : Z) : spec_float :=
  of_ratio s (D * 10 ^ Z.max k 0) (10 ^ Z.max (- k) 0).

(** *** Decimal digits *)

Fixpoint digits_aux (fuel : nat) (D : Z) (acc : list nat) : list nat :=
  match fuel with
  | O => acc
  | S fuel' =>
      if D <=? 0 then acc
      else digits_aux fuel' (D / 10) (Z.to_nat (D mod 10) :: acc)
  end.

(** The digits of [D], the first one first; none for 0. *)
Definition digits_of (D : Z) : list nat :=
  digits_aux (S (Z.to_nat (Z.log2 D))) D [].

Definition digits_value (ds : list nat) : Z :=
  fold_left (fun acc d => acc * 10 + Z.of_nat d) ds 0.

(** [D * 10 ^ k] without the zeros [D] ends with. *)
Fixpoint strip_zeros (fuel : nat) (D k : Z) : Z * Z :=
  match fuel with
  | O => (D, k)
  | S fuel' =>
      if (0 <? D) && (D mod 10 =? 0) then strip_zeros fuel' (D / 10) (k + 1)
      else (D, k)
  end.

Definition digit_char (d : nat) : ascii := ascii_of_nat (48 + d).

Fixpoint digit_string (ds : list nat) : string :=
  match ds with
  | [] => EmptyString
  | d :: ds' => String (digit_char d) (digit_string ds')
  end.

(** *** Writing *)

(** An exponent: its sign and at least two digits. *)
Definition exponent_string (x : Z) : string :=
  (if x <? 0 then "-" else "+") +:+
  (let ds := digits_of (Z.abs x) in
   match ds with
   | [] => "00"
   | [d] => digit_string [0%nat; d]
   | _ => digit_string ds
   end).

Definition exponent_part (exponent : option Z) : string :=
  match exponent with
  | None => EmptyString
  | Some x => "e" +:+ exponent_string x
  end.

(** A numeral: the integer digits, a point and the fraction digits when
    there are any, and an exponent when there is one. *)
Definition numeral (int_part frac_part : list nat) (exponent : option Z)
  : string :=
  digit_string int_part +:+
  match frac_part with
  | [] => EmptyString
  | _ => "." +:+ digit_string frac_part
  end +:+
  exponent_part exponent.

(** [D * 10 ^ k], [D > 0], in the notation of [repr]: with [decpt] the
    position of the point counted from the first of the digits, exponent
    notation when [decpt <= -4] or [decpt > 16] and positional notation
    otherwise. *)
Definition format_decimal (D k : Z) : string :=
  let '(D, k) := strip_zeros (S (Z.to_nat (Z.log2 D))) D k in
  let ds := digits_of D in
  let n := Z.of_nat (length ds) in
  let decpt := k + n in
  if (decpt <=? -4) || (16 <? decpt) then
    numeral (take 1 ds) (drop 1 ds) (Some (decpt - 1))
  else if decpt <=? 0 then
    numeral [0%nat] (replicate (Z.to_nat (- decpt)) 0%nat ++ ds) None
  else if n <=? decpt then
    numeral (ds ++ replicate (Z.to_nat (decpt - n)) 0%nat) [0%nat] None
  else
    numeral (take (Z.to_nat decpt) ds) (drop (Z.to_nat decpt) ds) None.

(** *** The shortest digits *)

(** [10 ^ t <= N / Dn] *)
Definition ge_pow10 (N Dn t : Z) : bool :=
  Dn * 10 ^ Z.max t 0 <=? N * 10 ^ Z.max (- t) 0.

(** The greatest [t] with [10 ^ t <= N / Dn], for [N / Dn >= 2 ^ -1100]. *)
Definition floor_log10 (N Dn : Z) : Z :=
  let l2 := Z.log2 (N * 2 ^ 1100 / Dn) - 1100 in
  let t0 := l2 * 30103 / 100000 - 1 in
  if ge_pow10 N Dn (t0 + 3) then t0 + 3
  else if ge_pow10 N Dn (t0 + 2) then t0 + 2
  else if ge_pow10 N Dn (t0 + 1) then t0 + 1
  else t0.

(** The decimal of [n] digits nearest to [N / Dn] among those that read back
    as [x], if there is one: of the two decimals of [n] digits around
    [N / Dn], the one that reads back, and the nearer one when both do. *)
Definition candidate (x : spec_float) (s : bool) (N Dn p10 : Z) (n : nat)
  : option (Z * Z) :=
  let j := Z.of_nat n - 1 - p10 in
  let a := N * 10 ^ Z.max j 0 in
  let b := Dn * 10 ^ Z.max (- j) 0 in
  let lo := a / b in
  let r := a mod b in
  let hi := lo + 1 in
  let ok_lo := bool_decide (of_decimal s lo (- j) = x) in
  let ok_hi := negb (r =? 0) && bool_decide (of_decimal s hi (- j) = x) in
  match ok_lo, ok_hi with
  | true, true =>
      match 2 * r ?= b with
      | Lt => Some (lo, - j)
      | Gt => Some (hi, - j)
      | Eq => if Z.even lo then Some (lo, - j) else Some (hi, - j)
      end
  | true, false => Some (lo, - j)
  | false, true => Some (hi, - j)
  | false, false => None
  end.

Fixpoint first_candidate (x : spec_float) (s : bool) (N Dn p10 : Z)
    (ns : list nat) : option (Z * Z) :=
  match ns with
  | [] => None
  | n :: ns' =>
      match candidate x s N Dn p10 n with
      | Some c => Some c
      | None => first_candidate x s N Dn p10 ns'
      end
  end.

(** The shortest decimal [(D, k)], standing for [D * 10 ^ k], that reads back
    as the double of mantissa [m] and exponent [e]: the first candidate of 1
    to 17 digits, and the exact decimal of the double when none of these
    reads back. *)
Definition shortest (s : bool) (m : positive) (e : Z) : Z * Z :=
  let N := Z.pos m * 2 ^ Z.max e 0 in
  let Dn := 2 ^ Z.max (- e) 0 in
  match first_candidate (S754_finite s m e) s N Dn (floor_log10 N Dn)
          (seq 1 17) with
  | Some c => c
  | None => if e <? 0 then (Z.pos m * 5 ^ (- e), e) else (N, 0)
  end.

(** [repr(x)] *)
Definition repr (x : spec_float) : string :=
  match x with
  | S754_zero s => if s then "-0.0" else "0.0"
  | S754_infinity s => if s then "-inf" else "inf"
  | S754_nan => "nan"
  | S754_finite s m e =>
      let '(D, k) := shortest s m e in
      (if s then "-" else "") +:+ format_decimal D k
  end.

(** *** Reading *)

Definition is_digit (c : ascii) : bool :=
  let n := nat_of_ascii c in (48 <=? n)%nat && (n <=? 57)%nat.

(** The digits a string starts with, and the rest of it. *)
Fixpoint span_digits (s : string) : list nat * string :=
  match s with
  | EmptyString => ([], EmptyString)
  | String c s' =>
      if is_digit c then
        let '(ds, rest) := span_digits s' in
        ((nat_of_ascii c - 48)%nat :: ds, rest)
      else ([], s)
  end.

Definition parse_sign (s : string) : bool * string :=
  match s with
  | String c s' =>
      if Ascii.eqb c "-" then (true, s')
      else if Ascii.eqb c "+" then (false, s')
      else (false, s)
  | EmptyString => (false, s)
  end.

Definition parse_exponent (s : string) : option Z :=
  match s with
  | EmptyString => Some 0
  | String c s' =>
      if Ascii.eqb c "e" || Ascii.eqb c "E" then
        let '(neg, s1) := parse_sign s' in
        match span_digits s1 with
        | (d :: ds, EmptyString) =>
            let x := digits_value (d :: ds) in
            Some (if neg then - x else x)
        | _ => None
        end
      else None
  end.

Definition parse_fraction (s : string) : list nat * string :=
  match s with
  | String c s' => if Ascii.eqb c "." then span_digits s' else ([], s)
  | EmptyString => ([], s)
  end.

(** [float(s)]; [None] stands for the [ValueError] of a string that is not a
    numeral. *)
Definition float (s : string) : option spec_float :=
  let '(neg, s1) := parse_sign s in
  let '(int_part, s2) := span_digits s1 in
  let '(frac_part, s3) := parse_fraction s2 in
  match int_part ++ frac_part with
  | [] =>
      if String.eqb s1 "inf" || String.eqb s1 "infinity" then
        Some (S754_infinity neg)
      else if String.eqb s1 "nan" then Some S754_nan
      else None
  | ds =>
      match parse_exponent s3 with
      | Some x =>
          Some (of_decimal neg (digits_value ds)
                  (x - Z.of_nat (length frac_part)))
      | None => None
      end
  end.

(** Digits below ten, and a string that does not go on with a digit. *)
Definition decimal_digits (ds : list nat) : Prop :=
  Forall (fun d => (d < 10)%nat) ds.

Definition no_leading_digit (s : string) : bool :=
  match s with
  | String c _ => negb (is_digit c)
  | EmptyString => true
  end.

End PyFloat.

(** A character for which the writer quotes a field. *)
Definition separator (c : ascii) : Prop :=
  c = COMMA \/ c = DQUOTE \/ c = LF \/ c = CR.

(** ** Dict and list literals *)

Unset Elimination Schemes.
Inductive pyval : Type :=
| PStr (s : string)
| PInt (n : Z)
| PList (items : list pyval)
| PDict (entries : list (string * pyval)).
Set Elimination Schemes.

Fixpoint assoc_get {A : Type} (k : string) (l : list (string * A)) : option A :=
  match l with
  | [] => None
  | (k', v) :: l' => if String.eqb k k' then Some v else assoc_get k l'
  end.

(** [d[k]] *)
Definition getitem (k : string) (d : pyval) : option pyval :=
  match d with
  | PDict entries => assoc_get k entries
  | _ => None
  end.

(** [d[k1][k2]...] *)
Fixpoint getpath (ks : list string) (d : pyval) : option pyval :=
  match ks with
  | [] => Some d
  | k :: ks' =>
      match getitem k d with
      | Some v => getpath ks' v
      | None => None
      end
  end.

Definition keys (d : pyval) : list string :=
  match d with
  | PDict entries => entries.*1
  | _ => []
  end.

Definition items_of (v : pyval) : list pyval :=
  match v with
  | PList items => items
  | _ => []
  end.

(** ** The request the tuning service receives *)

Record request : Type := mkRequest {
  HyperParameterTuningJobName : string;
  HyperParameterTuningJobConfig : pyval;
  TrainingJobDefinition : pyval
}.

(** ** What the notebook takes from its environment *)

Class Environment : Type := {
  (** numpy's legacy generator: [RandomState(seed)] and
      [rng.permutation(n)], which returns a shuffled [arange(n)] and advances
      the generator. *)
  RandomState : Type;
  RandomState_seed : Z -> RandomState;
  rng_permutation : RandomState -> nat -> list nat * RandomState;
  (** The text pandas writes for a double, and a reader of such text. *)
  float_repr : spec_float -> string;
  float_parse : string -> option spec_float;
  (** The ambient account: [boto3.Session().region_name],
      [sagemaker.get_execution_role()], [sess.default_bucket()] and
      [sagemaker.image_uris.retrieve]. *)
  region : string;
  role : string;
  bucket : string;
  image_uris_retrieve : string -> string -> string -> string;
  (** The dataset [load_iris()] returns. *)
  load_iris : Bunch
}.

(** ** The notebook *)

Section Notebook.

Context {env : Environment}.

(** What a run can read and change: numpy's global generator, the files of
    the working directory, the objects of the store by bucket and key, and
    the requests the tuning service has received.  A world is one in which
    the working directory can be written, the bucket takes the objects and
    the service takes the request. *)
Record World : Type := mkWorld {
  np_random : RandomState;
  files : gmap string string;
  s3 : gmap (string * string) string;
  requests : list request
}.

Definition M (A : Type) : Type := World -> (exn + A) * World.

Definition ret {A : Type} (a : A) : M A := fun w => (inr a, w).

Definition bind {A B : Type} (m : M A) (k : A -> M B) : M B :=
  fun w =>
    match m w with
    | (inl e, w') => (inl e, w')
    | (inr a, w') => k a w'
    end.

Definition lift {A : Type} (r : exn + A) : M A := fun w => (r, w).

Notation "'let!' x ':=' m 'in' k" := (bind m (fun x => k))
  (at level 10, x pattern, m at level 100, k at level 200).

(** [check_random_state(seed).permutation(n)]: [None] is numpy's global
    generator, which the draw advances; an int seeds a fresh generator. *)
Definition permutation_of (random_state : option Z) (n : nat) : M (list nat) :=
  match random_state with
  | None =>
      fun w =>
        let '(p, st) := rng_permutation (np_random w) n in
        (inr p, mkWorld st (files w) (s3 w) (requests w))
  | Some seed => ret (rng_permutation (RandomState_seed seed) n).1
  end.

(** [next(ShuffleSplit(test_size=n_test, train_size=n_train,
    random_state=random_state).split(X))] *)
Definition ShuffleSplit (n_samples n_test n_train : Z)
    (random_state : option Z) : M (list nat * list nat) :=
  let! (n_train, n_test) :=
    lift (validate_shuffle_split_int n_samples n_test n_train) in
  let! permutation := permutation_of random_state (Z.to_nat n_samples) in
  let ind_test := take (Z.to_nat n_test) permutation in
  let ind_train :=
    take (Z.to_nat n_train) (drop (Z.to_nat n_test) permutation) in
  ret (ind_train, ind_test).

(** [train_test_split(arr, test_size=test_size, random_state=random_state)]
    for one data frame and a float [test_size]. *)
Definition train_test_split (arr : DataFrame) (test_size : spec_float)
    (random_state : option Z) : M (DataFrame * DataFrame) :=
  let n_samples := Z.of_nat (length (rows arr)) in
  let! (n_train, n_test) :=
    lift (validate_shuffle_split_float n_samples test_size) in
  let! (train, test) := ShuffleSplit n_samples n_test n_train random_state in
  let! a := lift (iloc arr train) in
  let! b := lift (iloc arr test) in
  ret (a, b).

(** [df.to_csv(path, index=index, header=header)], where the file can be
    written: the file is created or replaced. *)
Definition csv_records (df : DataFrame) (index header : bool)
  : list (list string) :=
  (if header
   then [(if index then [EmptyString] else []) ++ columns df]
   else []) ++
  map (fun r => (if index then [pretty (r.1 : nat)] else []) ++
                map float_repr r.2)
      (rows df).

Definition to_csv (df : DataFrame) (path : string) (index header : bool)
  : M unit :=
  fun w =>
    (inr tt,
     mkWorld (np_random w)
             (<[path := csv_text (csv_records df index header)]> (files w))
             (s3 w) (requests w)).

(** [boto3.Session().resource('s3').Bucket(b).Object(key).upload_file(f)],
    where the store takes the object: the object is created or replaced; a
    file that does not exist is a [FileNotFoundError]. *)
Definition upload_file (b key filename : string) : M unit :=
  fun w =>
    match files w !! filename with
    | None => (inl (FileNotFoundError filename), w)
    | Some body =>
        (inr tt,
         mkWorld (np_random w) (files w) (<[(b, key) := body]> (s3 w))
                 (requests w))
    end.

(** [smclient.create_hyper_parameter_tuning_job(...)], where the service
    takes the request: the request reaches the service.  The service
    refuses a name that is taken, which the call raises as a [ClientError];
    that path is not modelled. *)
Definition create_hyper_parameter_tuning_job (name : string)
    (config definition : pyval) : M unit :=
  fun w =>
    (inr tt,
     mkWorld (np_random w) (files w) (s3 w)
             (requests w ++ [mkRequest name config definition])).

(** *** Cell 2 *)
Definition prefix : string := "DEMO-iris-hpo-xgboost".

(** *** Cell 3 *)
Definition iris : Bunch := load_iris.

Definition data : exn + DataFrame :=
  exn_bind (np_c_ (bunch_data iris) (bunch_target iris)) (fun arr =>
  pd_DataFrame arr (bunch_feature_names iris ++ ["target"])).

(** *** Cell 4 *)
Definition split_cell (data : DataFrame)
  : M (DataFrame * DataFrame * DataFrame) :=
  let! (train_data, test_data) :=
    train_test_split data Float64.lit_0_2 (Some 42) in
  let! (validation_data, test_data) :=
    train_test_split test_data Float64.lit_0_5 (Some 42) in
  ret (train_data, validation_data, test_data).

(** *** Cell 5 *)
Definition upload_cell (train_data validation_data : DataFrame) : M unit :=
  let! _ := to_csv train_data "train.csv" false false in
  let! _ := to_csv validation_data "validation.csv" false false in
  let! _ :=
    upload_file bucket (os_path_join prefix "train/train.csv") "train.csv" in
  upload_file bucket (os_path_join prefix "validation/validation.csv")
    "validation.csv".

(** *** Cell 6 *)
Definition tuning_job_config : pyval :=
  PDict [
    ("ParameterRanges", PDict [
       ("CategoricalParameterRanges", PList []);
       ("ContinuousParameterRanges", PList [
          PDict [("MaxValue", PStr "0.5");
                 ("MinValue", PStr "0.1");
                 ("Name", PStr "eta")]]);
       ("IntegerParameterRanges", PList [
          PDict [("MaxValue", PStr "5");
                 ("MinValue", PStr "2");
                 ("Name", PStr "max_depth")]])]);
    ("ResourceLimits", PDict [
       ("MaxNumberOfTrainingJobs", PInt 4);
       ("MaxParallelTrainingJobs", PInt 2)]);
    ("Strategy", PStr "Bayesian");
    ("HyperParameterTuningJobObjective", PDict [
       ("MetricName", PStr "validation:rmse");
       ("Type", PStr "Minimize")])].

(** *** Cell 7 *)
Definition training_image : string :=
  image_uris_retrieve "xgboost" region "1.0-1".

(** *** Cell 8 *)
Definition s3_input_train : string :=
  "s3://" +:+ bucket +:+ "/" +:+ prefix +:+ "/train".
Definition s3_input_validation : string :=
  "s3://" +:+ bucket +:+ "/" +:+ prefix +:+ "/validation/".

(** *** Cell 9 *)
Definition training_job_definition : pyval :=
  PDict [
    ("AlgorithmSpecification", PDict [
       ("TrainingImage", PStr training_image);
       ("TrainingInputMode", PStr "File")]);
    ("InputDataConfig", PList [
       PDict [
         ("ChannelName", PStr "train");
         ("CompressionType", PStr "None");
         ("ContentType", PStr "csv");
         ("DataSource", PDict [
            ("S3DataSource", PDict [
               ("S3DataDistributionType", PStr "FullyReplicated");
               ("S3DataType", PStr "S3Prefix");
               ("S3Uri", PStr s3_input_train)])])];
       PDict [
         ("ChannelName", PStr "validation");
         ("CompressionType", PStr "None");
         ("ContentType", PStr "csv");
         ("DataSource", PDict [
            ("S3DataSource", PDict [
               ("S3DataDistributionType", PStr "FullyReplicated");
               ("S3DataType", PStr "S3Prefix");
               ("S3Uri", PStr s3_input_validation)])])]]);
    ("OutputDataConfig", PDict [
       ("S3OutputPath",
        PStr ("s3://" +:+ bucket +:+ "/" +:+ prefix +:+ "/output"))]);
    ("ResourceConfig", PDict [
       ("InstanceCount", PInt 1);
       ("InstanceType", PStr "ml.m5.large");
       ("VolumeSizeInGB", PInt 5)]);
    ("RoleArn", PStr role);
    ("StaticHyperParameters", PDict [
       ("num_round", PStr "50");
       ("objective", PStr "reg:squarederror");
       ("verbosity", PStr "2")]);
    ("StoppingCondition", PDict [
       ("MaxRuntimeInSeconds", PInt 1800)])].

(** *** Cell 10 *)
Definition tuning_job_name : string := "IrisHPO".

Definition submit_cell : M unit :=
  create_hyper_parameter_tuning_job tuning_job_name tuning_job_config
    training_job_definition.

(** *** The cells in order *)
Definition notebook : M (DataFrame * DataFrame * DataFrame) :=
  let! data := lift data in
  let! (train_data, validation_data, test_data) := split_cell data in
  let! _ := upload_cell train_data validation_data in
  let! _ := submit_cell in
  ret (train_data, validation_data, test_data).

(** *** The value of a seeded split

    With an int [random_state] the call reads nothing of the world; this is
    the value it returns. *)
Definition seeded_split (arr : DataFrame) (test_size : spec_float)
    (seed : Z) : exn + (DataFrame * DataFrame) :=
  let n_samples := Z.of_nat (length (rows arr)) in
  let permutation :=
    (rng_permutation (RandomState_seed seed) (Z.to_nat n_samples)).1 in
  exn_bind (validate_shuffle_split_float n_samples test_size) (fun s1 =>
  exn_bind (validate_shuffle_split_int n_samples s1.2 s1.1) (fun s2 =>
  exn_bind (iloc arr (take (Z.to_nat s2.1)
                       (drop (Z.to_nat s2.2) permutation))) (fun a =>
  exn_bind (iloc arr (take (Z.to_nat s2.2) permutation)) (fun b =>
  inr (a, b))))).

(** A computation that neither reads nor changes the world. *)
Definition pure {A : Type} (m : M A) (r : exn + A) : Prop :=
  forall w : World, m w = (r, w).

Definition selects (df : DataFrame) (indices : list nat)
    (rs : list (nat * list spec_float)) : Prop :=
  Forall2 (fun i r => rows df !! i = Some r) indices rs.

(** *** The partitioning cell *)

Definition split_cell_value (data : DataFrame)
  : exn + (DataFrame * DataFrame * DataFrame) :=
  exn_bind (seeded_split data Float64.lit_0_2 42) (fun s1 =>
  exn_bind (seeded_split s1.2 Float64.lit_0_5 42) (fun s2 =>
  inr (s1.1, s2.1, s2.2))).

(** *** The frame of cell 3 *)

(** The shape of the dataset: 150 samples of 4 features, 150 class labels
    among 0, 1, 2, and 4 feature names. *)
Definition is_iris_shaped (b : Bunch) : bool :=
  Nat.eqb (length (bunch_data b)) 150 &&
  forallb (fun r => Nat.eqb (length r) 4) (bunch_data b) &&
  Nat.eqb (length (bunch_target b)) 150 &&
  forallb (fun t => (0 <=? t) && (t <=? 2)) (bunch_target b) &&
  Nat.eqb (length (bunch_feature_names b)) 4.

(** A row of a frame that is sample [r.1] of the dataset: its four features
    in order and then its class label as a double. *)
Definition iris_row (r : nat * list spec_float) : Prop :=
  exists feats lab y,
    bunch_data iris !! r.1 = Some feats /\
    bunch_target iris !! r.1 = Some lab /\
    Float64.of_int lab = inr y /\
    length feats = 4%nat /\
    r.2 = feats ++ [y].

(** *** Export *)

(** Parsing exported text back into rows of doubles. *)
Definition parse_csv (text : string) : option (list (list spec_float)) :=
  mapM (fun line => mapM float_parse (csv_fields line)) (csv_lines text).

(** A frame whose rows have cells, each written as a plain field. *)
Definition plain_cells (df : DataFrame) : Prop :=
  Forall (fun r : nat * list spec_float =>
            r.2 <> [] /\
            Forall (fun x => plain_field (float_repr x) = true) r.2)
         (rows df).

(** A frame whose cells read back from their text. *)
Definition readable_cells (df : DataFrame) : Prop :=
  Forall (fun r : nat * list spec_float =>
            Forall (fun x => float_parse (float_repr x) = Some x) r.2)
         (rows df).

(** A frame whose rows have cells, each a finite double. *)
Definition finite_cells (df : DataFrame) : Prop :=
  Forall (fun r : nat * list spec_float =>
            r.2 <> [] /\ Forall (fun x => PyFloat.valid x = true) r.2)
         (rows df).

(** The names of the hyperparameters a search space lists under a kind,
    and under the three kinds together. *)
Definition range_names (kind : string) (config : pyval) : list string :=
  match getpath ["ParameterRanges"; kind] config with
  | Some ranges =>
      omap (fun entry => match getitem "Name" entry with
                         | Some (PStr name) => Some name
                         | _ => None
                         end) (items_of ranges)
  | None => []
  end.

Definition parameter_names (config : pyval) : list string :=
  range_names "CategoricalParameterRanges" config ++
  range_names "ContinuousParameterRanges" config ++
  range_names "IntegerParameterRanges" config.

(** The [S3Uri] of an input channel, and the URI of an object. *)
Definition channel_uri (channel : pyval) : option pyval :=
  getpath ["DataSource"; "S3DataSource"; "S3Uri"] channel.

Definition object_uri (b key : string) : string :=
  "s3://" +:+ b +:+ "/" +:+ key.

(** The dataset is written in plain fields: the features and the class
    labels as doubles. *)
Definition plain_dataset : bool :=
  forallb (forallb (fun x => plain_field (float_repr x))) (bunch_data iris) &&
  forallb (fun t => match Float64.of_int t with
                    | inr y => plain_field (float_repr y)
                    | inl _ => true
                    end) (bunch_target iris).

(** A line of an exported file that is sample [r.1] of the dataset: five
    fields, the text of the four features in order and then the text of the
    class label. *)
Definition sample_line (line : string) (r : nat * list spec_float) : Prop :=
  exists feats lab y,
    bunch_data iris !! r.1 = Some feats /\
    bunch_target iris !! r.1 = Some lab /\
    Float64.of_int lab = inr y /\
    length feats = 4%nat /\
    csv_fields line = map float_repr feats ++ [float_repr y] /\
    length (csv_fields line) = 5%nat.

(** The object stored under a key holds a line per row of a frame, each
    the sample the row is. *)
Definition stored_samples (w : World) (key : string) (df : DataFrame) : Prop :=
  exists text,
    s3 w !! (bucket, key) = Some text /\
    Forall2 sample_line (csv_lines text) (rows df).

(** The world after cells 5 and 10. *)
Definition train_key : string := os_path_join prefix "train/train.csv".
Definition validation_key : string :=
  os_path_join prefix "validation/validation.csv".

Definition exported (df : DataFrame) : string :=
  csv_text (csv_records df false false).

Definition world_after_upload (train_data validation_data : DataFrame)
    (w : World) : World :=
  mkWorld (np_random w)
    (<["validation.csv" := exported validation_data]>
       (<["train.csv" := exported train_data]> (files w)))
    (<[(bucket, validation_key) := exported validation_data]>
       (<[(bucket, train_key) := exported train_data]> (s3 w)))
    (requests w).

Definition world_after_submit (w : World) : World :=
  mkWorld (np_random w) (files w) (s3 w)
    (requests w ++
     [mkRequest tuning_job_name tuning_job_config training_job_definition]).

End Notebook.

(** ** A sample environment

    A generator, a formatter, an account and a dataset of the shape of the
    Iris dataset, on which the statements below are exercised. *)

Module Sample.

Definition double (m : positive) (e : Z) : spec_float := S754_finite false m e.

(** The doubles of the sample and their shortest decimal text. *)
Definition table : list (spec_float * string) :=
  [ (S754_zero false, "0.0");
    (double 4503599627370496 (-52), "1.0");
    (double 4503599627370496 (-51), "2.0");
    (double 5742089524897382 (-50), "5.1");
    (double 7881299347898368 (-51), "3.5");
    (double 6305039478318694 (-52), "1.4");
    (double 7205759403792794 (-55), "0.2");
    (double 7881299347898368 (-50), "7.0");
    (double 7205759403792794 (-51), "3.2");
    (double 5291729562160333 (-50), "4.7");
    (double 7093169413108531 (-50), "6.3");
    (double 7430939385161318 (-51), "3.3");
    (double 6755399441055744 (-50), "6.0");
    (double 5629499534213120 (-51), "2.5") ].

Definition repr (x : spec_float) : string :=
  match find (fun p => bool_decide (p.1 = x)) table with
  | Some p => p.2
  | None => "nan"
  end.

Definition parse (s : string) : option spec_float :=
  match find (fun p => String.eqb p.2 s) table with
  | Some p => Some p.1
  | None => None
  end.

(** A generator whose state counts the draws: with [k] the state modulo
    [n], the numbers from [k] upwards in reverse, then those below [k]. *)
Definition permutation (st n : nat) : list nat * nat :=
  let k := (st mod n)%nat in
  (rev (drop k (seq 0 n)) ++ take k (seq 0 n), S st).

Definition setosa : list spec_float :=
  [double 5742089524897382 (-50); double 7881299347898368 (-51);
   double 6305039478318694 (-52); double 7205759403792794 (-55)].
Definition versicolor : list spec_float :=
  [double 7881299347898368 (-50); double 7205759403792794 (-51);
   double 5291729562160333 (-50); double 6305039478318694 (-52)].
Definition virginica : list spec_float :=
  [double 7093169413108531 (-50); double 7430939385161318 (-51);
   double 6755399441055744 (-50); double 5629499534213120 (-51)].

(** 150 samples: 50 of each class. *)
Definition dataset : Bunch :=
  mkBunch
    (replicate 50 setosa ++ replicate 50 versicolor ++ replicate 50 virginica)
    (replicate 50 0 ++ replicate 50 1 ++ replicate 50 2)
    ["sepal length (cm)"; "sepal width (cm)";
     "petal length (cm)"; "petal width (cm)"].

Definition environment : Environment := {|
  RandomState := nat;
  RandomState_seed := Z.to_nat;
  rng_permutation := permutation;
  float_repr := repr;
  float_parse := parse;
  region := "us-east-1";
  role := "arn:aws:iam::123456789012:role/service-role/notebook";
  bucket := "sagemaker-us-east-1-123456789012";
  image_uris_retrieve := fun framework region version =>
    "registry." +:+ region +:+ "/" +:+ framework +:+ ":" +:+ version;
  load_iris := dataset
|}.

Definition world : World (env := environment) :=
  mkWorld (env := environment) 0%nat ∅ ∅ [].

(** A frame of ten rows and its partitions. *)
Definition frame : DataFrame :=
  mkDataFrame
    ["sepal length (cm)"; "sepal width (cm)";
     "petal length (cm)"; "petal width (cm)"]
    (map (fun i => (i, nth (i mod 3) [setosa; versicolor; virginica] setosa))
         (seq 0 10)).

Definition parts : DataFrame * DataFrame * DataFrame :=
  Eval vm_compute in
    match (split_cell (env := environment) frame world).1 with
    | inr p => p
    | inl _ => (frame, frame, frame)
    end.

(** The frame cell 3 builds from the sample dataset. *)
Definition iris_frame : DataFrame :=
  Eval vm_compute in
    match data (env := environment) with
    | inr df => df
    | inl _ => frame
    end.

End Sample.

(** ** The sample environment with Python's text of a double *)

Module SamplePython.

Definition environment : Environment := {|
  RandomState := nat;
  RandomState_seed := Z.to_nat;
  rng_permutation := Sample.permutation;
  float_repr := PyFloat.repr;
  float_parse := PyFloat.float;
  region := "us-east-1";
  role := "arn:aws:iam::123456789012:role/service-role/notebook";
  bucket := "sagemaker-us-east-1-123456789012";
  image_uris_retrieve := fun framework region version =>
    "registry." +:+ region +:+ "/" +:+ framework +:+ ":" +:+ version;
  load_iris := Sample.dataset
|}.

Definition world : World (env := environment) :=
  mkWorld (env := environment) 0%nat ∅ ∅ [].

End SamplePython.

(** ** Datasets of any size

    What cell 3 needs of the dataset: as many labels as samples and as many
    features in every sample as there are feature names, and labels that
    convert to doubles. *)

Definition bunch_shape_ok (b : Bunch) : bool :=
  Nat.eqb (length (bunch_data b)) (length (bunch_target b)) &&
  forallb (fun r => Nat.eqb (length r) (length (bunch_feature_names b)))
          (bunch_data b).

Definition labels_convert (b : Bunch) : bool :=
  forallb (fun t => match Float64.of_int t with
                    | inr _ => true
                    | inl _ => false
                    end) (bunch_target b).

Module SampleSmall.

(** The sample environment with another dataset. *)
Definition with_dataset (b : Bunch) : Environment := {|
  RandomState := nat;
  RandomState_seed := Z.to_nat;
  rng_permutation := Sample.permutation;
  float_repr := Sample.repr;
  float_parse := Sample.parse;
  region := "us-east-1";
  role := "arn:aws:iam::123456789012:role/service-role/notebook";
  bucket := "sagemaker-us-east-1-123456789012";
  image_uris_retrieve := fun framework region version =>
    "registry." +:+ region +:+ "/" +:+ framework +:+ ":" +:+ version;
  load_iris := b
|}.

Definition names : list string :=
  ["sepal length (cm)"; "sepal width (cm)";
   "petal length (cm)"; "petal width (cm)"].

(** Five samples: too few for the two splits. *)
Definition five : Bunch :=
  mkBunch
    [Sample.setosa; Sample.versicolor; Sample.virginica;
     Sample.setosa; Sample.versicolor]
    [0; 1; 2; 0; 1] names.

(** Three samples and two labels. *)
Definition mismatched : Bunch :=
  mkBunch [Sample.setosa; Sample.versicolor; Sample.virginica] [0; 1] names.

(** Seven samples of mixed classes. *)
Definition seven : Bunch :=
  mkBunch
    [Sample.setosa; Sample.versicolor; Sample.virginica; Sample.setosa;
     Sample.versicolor; Sample.virginica; Sample.setosa]
    [0; 1; 2; 0; 1; 2; 0] names.

(** The first five rows of the sample frame. *)
Definition frame5 : DataFrame :=
  mkDataFrame (columns Sample.frame) (take 5 (rows Sample.frame)).

Definition five_env : Environment := with_dataset five.
Definition seven_env : Environment := with_dataset seven.
Definition mismatched_env : Environment := with_dataset mismatched.

Definition world (b : Bunch) : World (env := with_dataset b) :=
  mkWorld (env := with_dataset b) 0%nat ∅ ∅ [].

End SampleSmall.

(** ** Properties *)

(** The literals are the doubles nearest to 1/5 and 1/2, and the sizes cell 4
    computes for the dataset are 120 and 30, then 15 and 15. *)
Lemma lit_0_2_nearest :
  Float64.div Float64.lit_1 (S754_finite false 5 0) = Float64.lit_0_2.
Proof. vm_compute. reflexivity. Qed.

Lemma lit_0_5_nearest :
  Float64.div Float64.lit_1 (S754_finite false 2 0) = Float64.lit_0_5.
Proof. vm_compute. reflexivity. Qed.

Lemma sizes_of_150 :
  validate_shuffle_split_float 150 Float64.lit_0_2 = inr (120, 30) /\
  validate_shuffle_split_float 30 Float64.lit_0_5 = inr (15, 15).
Proof. split; vm_compute; reflexivity. Qed.

(** ** Properties of the text of a double *)

Lemma string_mem_app c a b :
  string_mem c (a +:+ b) = string_mem c a || string_mem c b.
Proof.
  induction a as [|d a IH]; simpl; [done|].
  by rewrite IH, orb_assoc.
Qed.

Lemma string_app_assoc (a b c : string) : (a +:+ b) +:+ c = a +:+ (b +:+ c).
Proof.
  induction a as [|d a IH]; [done|].
  change (String d ((a +:+ b) +:+ c) = String d (a +:+ (b +:+ c))).
  by rewrite IH.
Qed.

Section FloatText.

Import PyFloat.

(** *** Rounding a ratio *)

Lemma div_nearest_even_scale (c a b : Z) :
  0 < c -> 0 < b ->
  div_nearest_even (c * a) (c * b) = div_nearest_even a b.
Proof.
  intros Hc Hb. unfold div_nearest_even.
  rewrite Z.div_mul_cancel_l by lia.
  rewrite Z.mul_mod_distr_l by lia.
  destruct (Z.compare_spec (2 * (c * (a mod b))) (c * b)),
           (Z.compare_spec (2 * (a mod b)) b); try done; nia.
Qed.

Lemma div_nearest_even_exact (a b : Z) :
  0 < b -> div_nearest_even (a * b) b = a.
Proof.
  intros Hb. unfold div_nearest_even.
  rewrite Z.div_mul, Z.mod_mul by lia.
  destruct (Z.compare_spec (2 * 0) b); [lia|done|lia].
Qed.

Lemma div_nearest_even_nonpos (a b : Z) :
  a < 0 -> 0 < b -> div_nearest_even a b <= 0.
Proof.
  intros Ha Hb. unfold div_nearest_even.
  assert (a / b < 0) by (apply Z.div_lt_upper_bound; lia).
  destruct (2 * (a mod b) ?= b); [destruct (Z.even _)|..]; lia.
Qed.

Lemma of_ratio_scale (s : bool) (c n d : Z) :
  0 < c -> 0 < d -> of_ratio s (c * n) (c * d) = of_ratio s n d.
Proof.
  intros Hc Hd. unfold of_ratio.
  destruct (Z.eqb_spec n 0) as [->|Hn].
  - by rewrite Z.mul_0_r.
  - destruct (Z.eqb_spec (c * n) 0) as [H0|_]; [nia|].
    replace (c * n * 2 ^ 1100) with (c * (n * 2 ^ 1100)) by ring.
    rewrite Z.div_mul_cancel_l by lia.
    set (e := Z.max _ (-1074)).
    replace (c * n * 2 ^ Z.max (- e) 0) with (c * (n * 2 ^ Z.max (- e) 0))
      by ring.
    replace (c * d * 2 ^ Z.max e 0) with (c * (d * 2 ^ Z.max e 0)) by ring.
    rewrite div_nearest_even_scale; [done|done|].
    apply Z.mul_pos_pos; [done|]. apply Z.pow_pos_nonneg; lia.
Qed.

Lemma of_ratio_cross (s : bool) (n1 d1 n2 d2 : Z) :
  0 < d1 -> 0 < d2 -> n1 * d2 = n2 * d1 ->
  of_ratio s n1 d1 = of_ratio s n2 d2.
Proof.
  intros H1 H2 Heq.
  rewrite <- (of_ratio_scale s d2 n1 d1), <- (of_ratio_scale s d1 n2 d2)
    by done.
  f_equal; lia.
Qed.

Lemma of_ratio_nonpos (s : bool) (n d : Z) :
  n <= 0 -> 0 < d -> of_ratio s n d = S754_zero s.
Proof.
  intros Hn Hd. unfold of_ratio.
  destruct (Z.eqb_spec n 0) as [|Hn0]; [done|].
  set (e := Z.max _ (-1074)).
  assert (Hm : div_nearest_even (n * 2 ^ Z.max (- e) 0) (d * 2 ^ Z.max e 0)
               <= 0).
  { assert (0 < 2 ^ Z.max (- e) 0) by (apply Z.pow_pos_nonneg; lia).
    assert (0 < 2 ^ Z.max e 0) by (apply Z.pow_pos_nonneg; lia).
    apply div_nearest_even_nonpos; nia. }
  destruct (Z.eqb_spec (div_nearest_even (n * 2 ^ Z.max (- e) 0)
                          (d * 2 ^ Z.max e 0)) (2 ^ 53)) as [Heq|_].
  - rewrite Heq in Hm.
    assert (0 < 2 ^ 53) by (apply Z.pow_pos_nonneg; lia). lia.
  - destruct (div_nearest_even _ _); [done|lia|done].
Qed.

Lemma of_decimal_shift (s : bool) (D j k : Z) :
  0 <= j -> of_decimal s (D * 10 ^ j) (k - j) = of_decimal s D k.
Proof.
  intros Hj. unfold of_decimal.
  apply of_ratio_cross; try (apply Z.pow_pos_nonneg; lia).
  rewrite <- !Z.mul_assoc, <- !Z.pow_add_r by lia.
  f_equal. f_equal. lia.
Qed.

Lemma of_decimal_positive (s s' : bool) (D k : Z) (m : positive) (e : Z) :
  of_decimal s D k = S754_finite s' m e -> 0 < D.
Proof.
  intros H. destruct (Z.lt_ge_cases 0 D) as [|Hle]; [done|].
  unfold of_decimal in H. rewrite of_ratio_nonpos in H; [done| |].
  - assert (0 < 10 ^ Z.max k 0) by (apply Z.pow_pos_nonneg; lia). nia.
  - apply Z.pow_pos_nonneg; lia.
Qed.

Lemma digits2_pos_log2 (m : positive) :
  Z.pos (digits2_pos m) = Z.log2 (Z.pos m) + 1.
Proof.
  induction m as [m IH|m IH|]; simpl; [| |done].
  - rewrite Pos2Z.inj_succ, IH. destruct m; simpl; lia.
  - rewrite Pos2Z.inj_succ, IH. destruct m; simpl; lia.
Qed.

(** The exact decimal of a binary64 reads back as it. *)
Lemma of_decimal_exact (s : bool) (m : positive) (e : Z) :
  bounded 53 1024 m e = true ->
  of_decimal s (if e <? 0 then Z.pos m * 5 ^ (- e)
                else Z.pos m * 2 ^ Z.max e 0)
               (if e <? 0 then e else 0)
  = S754_finite s m e.
Proof.
  unfold bounded, canonical_mantissa, fexp, emin.
  rewrite andb_true_iff, Z.eqb_eq, Z.leb_le, digits2_pos_log2.
  intros [Hcanon Hmax].
  assert (Hlog : 0 <= Z.log2 (Z.pos m)) by apply Z.log2_nonneg.
  assert (Hlt : Z.pos m < 2 ^ 53).
  { apply Z.log2_lt_pow2; lia. }
  assert (Hemin : -1074 <= e) by lia.
  (* the value as a ratio with a power of two below *)
  assert (Hratio : of_decimal s (if e <? 0 then Z.pos m * 5 ^ (- e)
                                 else Z.pos m * 2 ^ Z.max e 0)
                                (if e <? 0 then e else 0)
                   = of_ratio s (Z.pos m * 2 ^ Z.max e 0) (2 ^ Z.max (- e) 0)).
  { unfold of_decimal. apply of_ratio_cross; try (apply Z.pow_pos_nonneg; lia).
    destruct (Z.ltb_spec e 0).
    - replace (Z.max e 0) with 0 by lia.
      replace (Z.max (- e) 0) with (- e) by lia.
      rewrite Z.pow_0_r, !Z.mul_1_r.
      replace 10 with (5 * 2) by done. rewrite Z.pow_mul_l. ring.
    - replace (Z.max 0 0) with 0 by lia.
      replace (Z.max (- 0) 0) with 0 by lia.
      replace (Z.max (- e) 0) with 0 by lia.
      rewrite Z.pow_0_r. ring. }
  rewrite Hratio. unfold of_ratio.
  set (n := Z.pos m * 2 ^ Z.max e 0). set (d := 2 ^ Z.max (- e) 0).
  assert (Hp1 : 0 < 2 ^ Z.max e 0) by (apply Z.pow_pos_nonneg; lia).
  assert (Hd : 0 < d) by (apply Z.pow_pos_nonneg; lia).
  destruct (Z.eqb_spec n 0) as [H0|_]; [unfold n in H0; nia|].
  assert (Hq : n * 2 ^ 1100 / d = Z.pos m * 2 ^ (e + 1100)).
  { unfold n, d.
    replace (2 ^ (e + 1100)) with (2 ^ (e + 1100 - Z.max e 0) * 2 ^ Z.max e 0).
    2:{ rewrite <- Z.pow_add_r by lia. f_equal. lia. }
    replace (Z.pos m * 2 ^ Z.max e 0 * 2 ^ 1100)
      with (Z.pos m * 2 ^ Z.max e 0 * 2 ^ (e + 1100 - Z.max e 0)
            * 2 ^ Z.max (- e) 0).
    2:{ rewrite <- !Z.mul_assoc, <- !Z.pow_add_r by lia.
        do 2 f_equal. lia. }
    rewrite Z.div_mul by lia. ring. }
  rewrite Hq, Z.log2_mul_pow2 by lia.
  replace (Z.max (e + 1100 + Z.log2 (Z.pos m) - 1100 - 52) (-1074)) with e
    by lia.
  assert (Hm : div_nearest_even (n * 2 ^ Z.max (- e) 0) (d * 2 ^ Z.max e 0)
               = Z.pos m).
  { unfold n, d.
    replace (Z.pos m * 2 ^ Z.max e 0 * 2 ^ Z.max (- e) 0)
      with (Z.pos m * (2 ^ Z.max (- e) 0 * 2 ^ Z.max e 0)) by ring.
    apply div_nearest_even_exact. nia. }
  rewrite Hm.
  destruct (Z.eqb_spec (Z.pos m) (2 ^ 53)); [lia|].
  destruct (Z.ltb_spec 971 e); [lia|done].
Qed.

(** *** Digits and numerals *)

Lemma digits_value_snoc ds d :
  digits_value (ds ++ [d]) = digits_value ds * 10 + Z.of_nat d.
Proof. unfold digits_value. by rewrite fold_left_app. Qed.

Lemma digits_value_app a b :
  digits_value (a ++ b)
  = digits_value a * 10 ^ Z.of_nat (length b) + digits_value b.
Proof.
  induction b as [|d b IH] using rev_ind.
  - rewrite app_nil_r. change (digits_value []) with 0.
    change (10 ^ Z.of_nat (length [])) with 1. lia.
  - rewrite app_assoc, !digits_value_snoc, IH, length_app. cbn [length].
    rewrite Nat2Z.inj_add, Z.pow_add_r by lia.
    change (10 ^ Z.of_nat 1) with 10. lia.
Qed.

Lemma digits_value_zeros n : digits_value (replicate n 0%nat) = 0.
Proof.
  unfold digits_value. induction n as [|n IH]; [done|].
  cbn [replicate fold_left]. exact IH.
Qed.

Lemma digits_aux_app fuel D acc :
  digits_aux fuel D acc = digits_aux fuel D [] ++ acc.
Proof.
  revert D acc. induction fuel as [|fuel IH]; intros D acc; [done|].
  cbn [digits_aux]. destruct (D <=? 0); [done|].
  rewrite IH, (IH _ [_]), <- app_assoc. done.
Qed.

Lemma digits_aux_value fuel D :
  0 <= D < 2 ^ Z.of_nat fuel -> digits_value (digits_aux fuel D []) = D.
Proof.
  revert D. induction fuel as [|fuel IH]; intros D HD.
  - cbn in *. unfold digits_value. cbn. lia.
  - cbn [digits_aux]. destruct (Z.leb_spec D 0) as [Hle|Hlt].
    + unfold digits_value. cbn. lia.
    + rewrite digits_aux_app, digits_value_snoc, IH.
      * rewrite Z2Nat.id by (apply Z.mod_pos_bound; lia).
        pose proof (Z.div_mod D 10). lia.
      * split; [apply Z.div_pos; lia|].
        apply Z.div_lt_upper_bound; [lia|].
        rewrite Nat2Z.inj_succ, Z.pow_succ_r in HD by lia. lia.
Qed.

Lemma digits_of_value D : 0 <= D -> digits_value (digits_of D) = D.
Proof.
  intros HD. apply digits_aux_value. split; [done|].
  rewrite Nat2Z.inj_succ, Z2Nat.id by apply Z.log2_nonneg.
  destruct (Z.eq_dec D 0) as [->|]; [done|].
  apply Z.log2_spec. lia.
Qed.

Lemma digits_aux_decimal fuel D acc :
  decimal_digits acc -> decimal_digits (digits_aux fuel D acc).
Proof.
  revert D acc. induction fuel as [|fuel IH]; intros D acc Hacc; [done|].
  cbn [digits_aux]. destruct (D <=? 0); [done|].
  apply IH. constructor; [|done].
  pose proof (Z.mod_pos_bound D 10). lia.
Qed.

Lemma digits_of_decimal D : decimal_digits (digits_of D).
Proof. apply digits_aux_decimal. constructor. Qed.

Lemma digits_of_nonempty D : 0 < D -> digits_of D <> [].
Proof.
  intros HD Hnil. pose proof (digits_of_value D) as Hv.
  rewrite Hnil in Hv. unfold digits_value in Hv. cbn in Hv. lia.
Qed.

Lemma strip_zeros_spec fuel D k :
  0 < D ->
  exists j, 0 <= j /\ D = (strip_zeros fuel D k).1 * 10 ^ j /\
            (strip_zeros fuel D k).2 = k + j /\
            0 < (strip_zeros fuel D k).1.
Proof.
  revert D k. induction fuel as [|fuel IH]; intros D k HD.
  - exists 0. cbn. lia.
  - cbn [strip_zeros].
    destruct (Z.ltb_spec 0 D) as [_|?]; [|lia]. cbn [andb].
    destruct (Z.eqb_spec (D mod 10) 0) as [Hmod|Hmod].
    + pose proof (Z.div_mod D 10).
      destruct (IH (D / 10) (k + 1)) as (j & Hj & HDj & Hk & Hpos); [lia|].
      exists (j + 1). rewrite Z.pow_add_r by lia. lia.
    + exists 0. cbn. lia.
Qed.

(** digit characters *)
Lemma digit_char_spec d :
  (d < 10)%nat ->
  is_digit (digit_char d) = true /\
  (nat_of_ascii (digit_char d) - 48)%nat = d /\
  Ascii.eqb (digit_char d) "-" = false /\
  Ascii.eqb (digit_char d) "+" = false /\
  Ascii.eqb (digit_char d) "." = false /\
  Ascii.eqb (digit_char d) "," = false /\
  Ascii.eqb (digit_char d) "034" = false /\
  Ascii.eqb (digit_char d) "010" = false /\
  Ascii.eqb (digit_char d) "013" = false.
Proof.
  intros Hd. do 10 (destruct d as [|d]; [done|]). lia.
Qed.

Lemma span_digits_app ds rest :
  decimal_digits ds -> no_leading_digit rest = true ->
  span_digits (digit_string ds +:+ rest) = (ds, rest).
Proof.
  intros Hds Hrest. induction Hds as [|d ds Hd _ IH].
  - change (digit_string [] +:+ rest) with rest.
    destruct rest as [|c rest]; [done|]. cbn in *.
    by destruct (is_digit c).
  - change (digit_string (d :: ds) +:+ rest)
      with (String (digit_char d) (digit_string ds +:+ rest)).
    cbn [span_digits]. rewrite IH.
    destruct (digit_char_spec d Hd) as (-> & -> & _). done.
Qed.

Lemma span_digits_all ds :
  decimal_digits ds -> span_digits (digit_string ds) = (ds, EmptyString).
Proof.
  intros Hds. induction Hds as [|d ds Hd _ IH]; [done|].
  cbn [digit_string span_digits]. rewrite IH.
  destruct (digit_char_spec d Hd) as (-> & -> & _). done.
Qed.

Lemma exponent_round_trip x :
  parse_exponent ("e" +:+ exponent_string x) = Some x.
Proof.
  pose proof (digits_of_value (Z.abs x) (Z.abs_nonneg x)) as Hv.
  pose proof (digits_of_decimal (Z.abs x)) as Hdec.
  unfold exponent_string.
  set (body := match digits_of (Z.abs x) with
               | [] => "00"
               | [d] => digit_string [0%nat; d]
               | _ => digit_string (digits_of (Z.abs x))
               end).
  assert (exists d ds,
             span_digits body = (d :: ds, EmptyString) /\
             digits_value (d :: ds) = Z.abs x) as (d & ds & Hspan & Hval).
  { subst body. destruct (digits_of (Z.abs x)) as [|d [|d' ds]].
    - exists 0%nat, [0%nat]. done.
    - exists 0%nat, [d]. split; [|done].
      apply span_digits_all. constructor; [lia|done].
    - exists d, (d' :: ds). split; [|done]. by apply span_digits_all. }
  destruct (Z.ltb_spec x 0) as [Hneg|Hpos].
  - change (parse_exponent (String "e" (String "-" body)) = Some x).
    cbn [parse_exponent parse_sign Ascii.eqb Bool.eqb orb].
    rewrite Hspan, Hval. f_equal. lia.
  - change (parse_exponent (String "e" (String "+" body)) = Some x).
    cbn [parse_exponent parse_sign Ascii.eqb Bool.eqb orb].
    rewrite Hspan, Hval. f_equal. lia.
Qed.

(** *** Reading what was written *)

Lemma parse_sign_numeral (s : bool) i f ox :
  i <> [] -> decimal_digits i ->
  parse_sign ((if s then "-" else "") +:+ numeral i f ox)
  = (s, numeral i f ox).
Proof.
  intros Hi Hdec. destruct s; [done|].
  change ("" +:+ numeral i f ox) with (numeral i f ox).
  destruct Hdec as [|d i Hd _]; [done|].
  unfold numeral.
  change (digit_string (d :: i) +:+ ?r)
    with (String (digit_char d) (digit_string i +:+ r)).
  cbn [parse_sign].
  by destruct (digit_char_spec d Hd) as (_ & _ & -> & -> & _).
Qed.

Lemma float_numeral (s : bool) i f ox :
  i <> [] -> decimal_digits i -> decimal_digits f ->
  float ((if s then "-" else "") +:+ numeral i f ox)
  = Some (of_decimal s (digits_value (i ++ f))
            (default 0 ox - Z.of_nat (length f))).
Proof.
  intros Hi Hdi Hdf. unfold float.
  rewrite parse_sign_numeral by done.
  unfold numeral.
  assert (Hexp : no_leading_digit (exponent_part ox) = true)
    by (by destruct ox).
  rewrite span_digits_app by (done || by destruct f, ox).
  assert (Hfrac :
    parse_fraction (match f with
                    | [] => EmptyString
                    | _ => "." +:+ digit_string f
                    end +:+ exponent_part ox) = (f, exponent_part ox)).
  { destruct f as [|d f].
    - change ("" +:+ exponent_part ox) with (exponent_part ox).
      by destruct ox.
    - change (parse_fraction
                (String "." (digit_string (d :: f) +:+ exponent_part ox))
              = (d :: f, exponent_part ox)).
      cbn [parse_fraction Ascii.eqb Bool.eqb]. by apply span_digits_app. }
  rewrite Hfrac.
  destruct (i ++ f) as [|d ds] eqn:Happ; [by destruct i|].
  assert (parse_exponent (exponent_part ox) = Some (default 0 ox)) as ->.
  { destruct ox; [apply exponent_round_trip|done]. }
  done.
Qed.

Lemma float_format_decimal (s : bool) D k :
  0 < D ->
  float ((if s then "-" else "") +:+ format_decimal D k)
  = Some (of_decimal s D k).
Proof.
  intros HD. unfold format_decimal.
  destruct (strip_zeros_spec (S (Z.to_nat (Z.log2 D))) D k HD)
    as (j & Hj & HDj & Hk & Hpos).
  destruct (strip_zeros _ D k) as [D' k']. cbn [fst snd] in *.
  pose proof (digits_of_value D' ltac:(lia)) as Hv.
  pose proof (digits_of_decimal D') as Hdec.
  pose proof (digits_of_nonempty D' Hpos) as Hne.
  set (ds := digits_of D') in *.
  assert (Hshift : of_decimal s D k = of_decimal s D' k').
  { rewrite HDj. replace k with (k' - j) by lia. by apply of_decimal_shift. }
  rewrite Hshift.
  assert (Hlen : (0 < length ds)%nat) by (destruct ds; [done|cbn; lia]).
  set (n := Z.of_nat (length ds)) in *.
  destruct (_ || _) eqn:Hexp.
  - rewrite float_numeral;
      [|by destruct ds|by apply Forall_take|by apply Forall_drop].
    rewrite take_drop, Hv, length_drop. cbn [default from_option id].
    do 2 f_equal. subst n. lia.
  - destruct (Z.leb_spec (k' + n) 0) as [Hle|Hgt].
    + rewrite float_numeral;
        [|done|by repeat constructor
         |apply Forall_app; split; [apply Forall_replicate; lia|done]].
      change ([0%nat] ++ replicate ?z 0%nat ++ ds)
        with (replicate (S z) 0%nat ++ ds).
      rewrite digits_value_app, digits_value_zeros, Hv.
      rewrite length_app, length_replicate. cbn [default from_option id].
      do 2 f_equal; subst n; lia.
    + destruct (Z.leb_spec n (k' + n)) as [Hge|Hlt].
      * rewrite float_numeral;
          [|by destruct ds
           |apply Forall_app; split; [done|apply Forall_replicate; lia]
           |by repeat constructor].
        rewrite digits_value_snoc, digits_value_app, digits_value_zeros.
        rewrite Hv, length_replicate. cbn [default from_option id length].
        replace (k' + n - n) with k' by lia.
        rewrite Z2Nat.id by lia.
        replace ((D' * 10 ^ k' + 0) * 10 + Z.of_nat 0)
          with (D' * 10 ^ (k' + 1)) by (rewrite Z.pow_add_r by lia; lia).
        replace (0 - Z.of_nat 1) with (k' - (k' + 1)) by lia.
        rewrite of_decimal_shift by lia. done.
      * rewrite float_numeral;
          [|destruct ds; [done|];
            by destruct (Z.to_nat (k' + n)) eqn:?; [lia|]
           |by apply Forall_take|by apply Forall_drop].
        rewrite take_drop, Hv, length_drop. cbn [default from_option id].
        do 2 f_equal. subst n. lia.
Qed.

Lemma candidate_sound x s N Dn p10 n D k :
  candidate x s N Dn p10 n = Some (D, k) -> of_decimal s D k = x.
Proof.
  unfold candidate.
  set (j := Z.of_nat n - 1 - p10).
  set (a := N * 10 ^ Z.max j 0). set (b := Dn * 10 ^ Z.max (- j) 0).
  destruct (bool_decide_reflect (of_decimal s (a / b) (- j) = x)) as [Hlo|_];
    destruct (negb (a mod b =? 0)); cbn [andb];
    try destruct (bool_decide_reflect
                    (of_decimal s (a / b + 1) (- j) = x)) as [Hhi|_];
    try destruct (2 * (a mod b) ?= b); try destruct (Z.even (a / b));
    intros [= <- <-]; done.
Qed.

Lemma first_candidate_sound x s N Dn p10 ns D k :
  first_candidate x s N Dn p10 ns = Some (D, k) -> of_decimal s D k = x.
Proof.
  induction ns as [|n ns IH]; [done|]. cbn [first_candidate].
  destruct (candidate x s N Dn p10 n) as [[D' k']|] eqn:Hc; [|done].
  intros [= <- <-]. by eapply candidate_sound.
Qed.

Lemma shortest_round_trips s m e :
  bounded 53 1024 m e = true ->
  of_decimal s (shortest s m e).1 (shortest s m e).2 = S754_finite s m e.
Proof.
  intros Hb. unfold shortest.
  destruct (first_candidate _ _ _ _ _ _) as [[D k]|] eqn:Hc.
  - by eapply first_candidate_sound.
  - pose proof (of_decimal_exact s m e Hb) as Hex.
    by destruct (e <? 0).
Qed.

Lemma float_repr_round_trip x : valid x = true -> float (repr x) = Some x.
Proof.
  destruct x as [s|s| |s m e]; try done.
  - intros _. by destruct s.
  - cbn [valid repr]. intros Hb.
    pose proof (shortest_round_trips s m e Hb) as Hs.
    destruct (shortest s m e) as [D k]. cbn [fst snd] in Hs.
    rewrite float_format_decimal, Hs; [done|].
    by eapply of_decimal_positive.
Qed.

(** *** No separator in a numeral *)

Lemma string_mem_digit_string c ds :
  separator c -> decimal_digits ds -> string_mem c (digit_string ds) = false.
Proof.
  intros Hc Hds. induction Hds as [|d ds Hd _ IH]; [done|].
  cbn [digit_string string_mem]. rewrite IH, orb_false_r.
  destruct (digit_char_spec d Hd) as (_ & _ & _ & _ & _ & H1 & H2 & H3 & H4).
  rewrite Ascii.eqb_sym.
  by destruct Hc as [-> | [-> | [-> | ->] ] ].
Qed.

Lemma string_mem_exponent_string c x :
  separator c -> string_mem c (exponent_string x) = false.
Proof.
  intros Hc. unfold exponent_string. rewrite string_mem_app.
  apply orb_false_intro.
  - by destruct (x <? 0), Hc as [-> | [-> | [-> | ->] ] ].
  - pose proof (digits_of_decimal (Z.abs x)) as Hdec.
    destruct (digits_of (Z.abs x)) as [|d [|d' ds]].
    + by destruct Hc as [-> | [-> | [-> | ->] ] ].
    + apply string_mem_digit_string; [done|].
      constructor; [lia|done].
    + by apply string_mem_digit_string.
Qed.

Lemma string_mem_numeral c i f ox :
  separator c -> decimal_digits i -> decimal_digits f ->
  string_mem c (numeral i f ox) = false.
Proof.
  intros Hc Hi Hf. unfold numeral. rewrite !string_mem_app.
  rewrite string_mem_digit_string by done. cbn [orb].
  apply orb_false_intro.
  - destruct f as [|d f]; [done|]. rewrite string_mem_app.
    rewrite string_mem_digit_string by done.
    by destruct Hc as [-> | [-> | [-> | ->] ] ].
  - destruct ox as [x|]; [|done]. cbn [exponent_part].
    rewrite string_mem_app.
    rewrite string_mem_exponent_string by done.
    by destruct Hc as [-> | [-> | [-> | ->] ] ].
Qed.

Lemma numeral_nonempty i f ox : i <> [] -> numeral i f ox <> EmptyString.
Proof. by destruct i. Qed.

Lemma format_decimal_numeral D k :
  0 < D ->
  exists i f ox, format_decimal D k = numeral i f ox /\
                 i <> [] /\ decimal_digits i /\ decimal_digits f.
Proof.
  intros HD. unfold format_decimal.
  destruct (strip_zeros_spec (S (Z.to_nat (Z.log2 D))) D k HD)
    as (j & Hj & HDj & Hk & Hpos).
  destruct (strip_zeros _ D k) as [D' k']. cbn [fst snd] in *.
  pose proof (digits_of_decimal D') as Hdec.
  pose proof (digits_of_nonempty D' Hpos) as Hne.
  set (ds := digits_of D') in *.
  set (n := Z.of_nat (length ds)) in *.
  destruct (_ || _).
  - eexists _, _, _. split; [done|].
    split; [by destruct ds|]. split; [by apply Forall_take|].
    by apply Forall_drop.
  - destruct (Z.leb_spec (k' + n) 0) as [Hle|Hgt].
    + eexists _, _, _. split; [done|]. split; [done|].
      split; [by repeat constructor|].
      apply Forall_app. split; [apply Forall_replicate; lia|done].
    + destruct (Z.leb_spec n (k' + n)) as [Hge|Hlt].
      * eexists _, _, _. split; [done|]. split; [by destruct ds|].
        split; [|by repeat constructor].
        apply Forall_app. split; [done|apply Forall_replicate; lia].
      * eexists _, _, _. split; [done|].
        split; [|split; [by apply Forall_take|by apply Forall_drop]].
        destruct ds; [done|].
        by destruct (Z.to_nat (k' + n)) eqn:?; [lia|].
Qed.

Lemma plain_field_intro s :
  (forall c, separator c -> string_mem c s = false) ->
  s <> EmptyString -> plain_field s = true.
Proof.
  intros Hmem Hne. unfold plain_field, needs_quote.
  rewrite !Hmem by (unfold separator; auto). cbn [orb negb andb].
  by destruct s.
Qed.

Lemma repr_plain x : valid x = true -> plain_field (repr x) = true.
Proof.
  destruct x as [s|s| |s m e]; try done.
  - intros _. by destruct s.
  - cbn [valid repr]. intros Hb.
    pose proof (shortest_round_trips s m e Hb) as Hs.
    destruct (shortest s m e) as [D k]. cbn [fst snd] in Hs.
    apply of_decimal_positive in Hs.
    destruct (format_decimal_numeral D k Hs)
      as (i & f & ox & -> & Hi & Hdi & Hdf).
    apply plain_field_intro.
    + intros c Hc. rewrite string_mem_app, string_mem_numeral by done.
      by destruct s, Hc as [-> | [-> | [-> | ->] ] ].
    + destruct s; [done|]. by destruct i.
Qed.

End FloatText.

Section Properties.

Context {env : Environment}.

(** [rng.permutation(n)] returns the numbers below [n] in some order. *)
Hypothesis rng_permutation_perm :
  forall (st : RandomState) (n : nat), (rng_permutation st n).1 ≡ₚ seq 0 n.

Lemma pure_ret {A : Type} (a : A) : pure (ret a) (inr a).
Proof. by intros w. Qed.

Lemma pure_lift {A : Type} (r : exn + A) : pure (lift r) r.
Proof. by intros w. Qed.

Lemma pure_bind {A B : Type} (m : M A) (k : A -> M B) r (f : A -> exn + B) :
  pure m r -> (forall a, pure (k a) (f a)) -> pure (bind m k) (exn_bind r f).
Proof.
  intros Hm Hk w. unfold bind. rewrite Hm.
  destruct r as [e|a]; simpl; [done|apply Hk].
Qed.

Lemma pure_permutation_of (seed : Z) (n : nat) :
  pure (permutation_of (Some seed) n)
       (inr (rng_permutation (RandomState_seed seed) n).1).
Proof. by intros w. Qed.

Lemma pure_train_test_split (arr : DataFrame) (test_size : spec_float)
    (seed : Z) :
  pure (train_test_split arr test_size (Some seed))
       (seeded_split arr test_size seed).
Proof.
  intros w.
  unfold train_test_split, seeded_split, ShuffleSplit, bind, lift, ret.
  destruct (validate_shuffle_split_float _ _) as [e|[n_train n_test]];
    simpl; [done|].
  destruct (validate_shuffle_split_int _ _ _) as [e|[n_train' n_test']];
    simpl; [done|].
  destruct (iloc arr (take _ (drop _ _))) as [e|a]; simpl; [done|].
  by destruct (iloc arr (take _ _)) as [e|b].
Qed.

(** *** Row selection *)

Lemma exn_mapM_inr {A B : Type} (f : A -> exn + B) (l : list A) (l' : list B) :
  exn_mapM f l = inr l' <-> Forall2 (fun a b => f a = inr b) l l'.
Proof.
  revert l'. induction l as [|a l IH]; intros l'; simpl.
  - split; [intros [= <-]; constructor|by inversion 1].
  - split.
    + destruct (f a) as [e|b] eqn:Hfa; simpl; [done|].
      destruct (exn_mapM f l) as [e|bs] eqn:Hl; simpl; [done|].
      intros [= <-]. constructor; [done|by apply IH].
    + inversion 1 as [|? b ? bs Hfa Hl]; subst.
      rewrite Hfa; simpl. apply IH in Hl. by rewrite Hl.
Qed.

Lemma iloc_inr (df d : DataFrame) (indices : list nat) :
  iloc df indices = inr d <->
  columns d = columns df /\ selects df indices (rows d).
Proof.
  unfold iloc, selects. split.
  - destruct (exn_mapM _ indices) as [e|rs] eqn:Hrs; simpl; [done|].
    intros [= <-]; simpl. split; [done|].
    apply exn_mapM_inr in Hrs.
    eapply Forall2_impl; [exact Hrs|]. intros i r; simpl.
    by destruct (rows df !! i); intros [= ->].
  - destruct d as [cols rs]; simpl. intros [-> Hsel].
    assert (exn_mapM (fun i => match rows df !! i with
                               | Some r => inr r
                               | None => inl IndexError
                               end) indices = inr rs) as ->; [|done].
    apply exn_mapM_inr. eapply Forall2_impl; [exact Hsel|].
    intros i r; simpl. by intros ->.
Qed.

Lemma iloc_in_range (df : DataFrame) (indices : list nat) :
  Forall (fun i => (i < length (rows df))%nat) indices ->
  exists d, iloc df indices = inr d.
Proof.
  intros Hin.
  assert (exists rs, selects df indices rs) as [rs Hrs].
  { induction Hin as [|i l Hi _ [rs IH]]; [exists []; constructor|].
    destruct (lookup_lt_is_Some_2 _ _ Hi) as [r Hr].
    exists (r :: rs). by constructor. }
  exists (mkDataFrame (columns df) rs). by apply iloc_inr.
Qed.

Lemma selects_length df indices rs :
  selects df indices rs -> length rs = length indices.
Proof. intros H. symmetry. exact (Forall2_length _ _ _ H). Qed.

Lemma selects_elem_of df indices rs r :
  selects df indices rs -> r ∈ rs -> r ∈ rows df.
Proof.
  intros Hsel Hr. induction Hsel as [|i r' l rs' Hi _ IH]; [by inversion Hr|].
  apply elem_of_cons in Hr as [->|Hr]; [|by apply IH].
  by eapply list_elem_of_lookup_2.
Qed.

Lemma selects_app df l1 l2 rs1 rs2 :
  selects df l1 rs1 -> selects df l2 rs2 -> selects df (l1 ++ l2) (rs1 ++ rs2).
Proof. apply Forall2_app. Qed.

(** Distinct positions of a frame whose labels are distinct select rows
    with distinct labels. *)
Lemma selects_NoDup df indices rs :
  NoDup (index df) -> NoDup indices -> selects df indices rs -> NoDup rs.*1.
Proof.
  intros Hdf Hidx Hsel. induction Hsel as [|i r l rs' Hi Hsel IH]; simpl.
  - constructor.
  - apply NoDup_cons in Hidx as [Hil Hl]. constructor; [|by apply IH].
    intros Hin. apply list_elem_of_fmap in Hin as [r' [Hlab Hr']].
    apply list_elem_of_lookup in Hr' as [k Hk].
    destruct (Forall2_lookup_r _ _ _ _ _ Hsel Hk) as [j [Hj Hjr]].
    assert (i = j) as ->.
    { eapply NoDup_lookup; [exact Hdf| |].
      - unfold index. rewrite list_lookup_fmap, Hi. reflexivity.
      - unfold index. rewrite list_lookup_fmap, Hjr. simpl. by rewrite Hlab. }
    apply Hil. by eapply list_elem_of_lookup_2.
Qed.

Lemma selects_omap df indices rs :
  selects df indices rs -> rs = omap (fun i => rows df !! i) indices.
Proof.
  induction 1 as [|i r l rs' Hi _ IH]; [done|].
  cbn [omap list_omap]. rewrite Hi. by f_equal.
Qed.

Lemma omap_lookup_seq {A : Type} (pre l : list A) :
  omap (fun i => (pre ++ l) !! i) (seq (length pre) (length l)) = l.
Proof.
  revert pre. induction l as [|x l IH]; intros pre; simpl; [done|].
  rewrite list_lookup_middle by done. f_equal.
  specialize (IH (pre ++ [x])).
  rewrite <- app_assoc, length_app in IH; simpl in IH.
  by rewrite Nat.add_1_r in IH.
Qed.

(** Selecting by a permutation of all positions permutes the rows. *)
Lemma selects_Permutation df indices rs :
  indices ≡ₚ seq 0 (length (rows df)) -> selects df indices rs ->
  rs ≡ₚ rows df.
Proof.
  intros Hperm Hsel. rewrite (selects_omap _ _ _ Hsel), Hperm.
  pose proof (omap_lookup_seq [] (rows df)) as Hseq. simpl in Hseq.
  by rewrite Hseq.
Qed.

(** *** The sizes of a split *)

Lemma validate_shuffle_split_float_inr n test_size n_train n_test :
  validate_shuffle_split_float n test_size = inr (n_train, n_test) ->
  n_train = n - n_test /\ n_train <> 0.
Proof.
  unfold validate_shuffle_split_float.
  destruct (_ || _); [done|].
  destruct (Float64.of_int n) as [e|x]; simpl; [done|].
  destruct (Float64.ceil _) as [e|k]; simpl; [done|].
  destruct (n <? _); [done|].
  destruct (n - k =? 0) eqn:Hz; [done|].
  intros [= <- <-]. split; [done|]. by apply Z.eqb_neq.
Qed.

Lemma validate_shuffle_split_int_inr n n_test n_train s :
  validate_shuffle_split_int n n_test n_train = inr s <->
  s = (n_train, n_test) /\ 0 < n_test < n /\ 0 < n_train < n /\
  n_train + n_test <= n.
Proof.
  unfold validate_shuffle_split_int.
  destruct (Z.leb_spec n n_test), (Z.leb_spec n_test 0),
           (Z.leb_spec n n_train), (Z.leb_spec n_train 0),
           (Z.ltb_spec n (n_train + n_test)), (Z.eqb_spec n_train 0);
    simpl; split; try done; try (intros [_ ?]; lia).
  - intros [= <-]. split; [done|lia].
  - by intros [-> _].
Qed.

(** What a seeded split that returns has returned. *)
Lemma seeded_split_inr arr test_size seed a b :
  seeded_split arr test_size seed = inr (a, b) ->
  exists n_train n_test : nat,
    let n := length (rows arr) in
    let permutation := (rng_permutation (RandomState_seed seed) n).1 in
    validate_shuffle_split_float (Z.of_nat n) test_size
      = inr (Z.of_nat n_train, Z.of_nat n_test) /\
    (0 < n_train)%nat /\ (0 < n_test)%nat /\ (n_train + n_test = n)%nat /\
    columns a = columns arr /\ columns b = columns arr /\
    selects arr (take n_train (drop n_test permutation)) (rows a) /\
    selects arr (take n_test permutation) (rows b).
Proof.
  unfold seeded_split. rewrite Nat2Z.id.
  destruct (validate_shuffle_split_float _ _) as [e|[n_train n_test]] eqn:Hf;
    simpl; [done|].
  destruct (validate_shuffle_split_int _ _ _) as [e|s2] eqn:Hi; simpl; [done|].
  apply validate_shuffle_split_int_inr in Hi as (-> & Htest & Htrain & Hsum).
  simpl.
  destruct (iloc arr (take _ (drop _ _))) as [e|a'] eqn:Ha; simpl; [done|].
  destruct (iloc arr (take (Z.to_nat n_test) _)) as [e|b'] eqn:Hb;
    simpl; [done|].
  intros Hab. simplify_eq.
  apply iloc_inr in Ha as [Hca Ha]. apply iloc_inr in Hb as [Hcb Hb].
  apply validate_shuffle_split_float_inr in Hf as Hf'. destruct Hf' as [Hn _].
  exists (Z.to_nat n_train), (Z.to_nat n_test). simpl.
  rewrite !Z2Nat.id by lia. repeat split; try done; lia.
Qed.

(** A seeded split whose sizes pass the checks returns. *)
Lemma seeded_split_ok arr test_size seed (n_train n_test : nat) :
  validate_shuffle_split_float (Z.of_nat (length (rows arr))) test_size
    = inr (Z.of_nat n_train, Z.of_nat n_test) ->
  (0 < n_train)%nat -> (0 < n_test)%nat ->
  exists a b, seeded_split arr test_size seed = inr (a, b) /\
              length (rows a) = n_train /\ length (rows b) = n_test.
Proof using rng_permutation_perm.
  intros Hf Htrain Htest.
  apply validate_shuffle_split_float_inr in Hf as Hf'. destruct Hf' as [Hn _].
  unfold seeded_split. rewrite Nat2Z.id, Hf. simpl.
  assert (validate_shuffle_split_int (Z.of_nat (length (rows arr)))
            (Z.of_nat n_test) (Z.of_nat n_train)
          = inr (Z.of_nat n_train, Z.of_nat n_test)) as ->.
  { apply validate_shuffle_split_int_inr. split; [done|lia]. }
  simpl. rewrite !Nat2Z.id.
  set (permutation := (rng_permutation _ _).1).
  assert (Hperm : permutation ≡ₚ seq 0 (length (rows arr)))
    by apply rng_permutation_perm.
  assert (Hrange : Forall (fun i => (i < length (rows arr))%nat) permutation).
  { rewrite Hperm. apply Forall_forall. intros i Hi.
    apply elem_of_seq in Hi. lia. }
  assert (Hlen : length permutation = length (rows arr)).
  { by rewrite Hperm, length_seq. }
  destruct (iloc_in_range arr (take n_train (drop n_test permutation)))
    as [a Ha]; [by apply Forall_take, Forall_drop|].
  destruct (iloc_in_range arr (take n_test permutation))
    as [b Hb]; [by apply Forall_take|].
  rewrite Ha, Hb. simpl. exists a, b. split; [done|].
  apply iloc_inr in Ha as [_ Ha]. apply iloc_inr in Hb as [_ Hb].
  rewrite (selects_length _ _ _ Ha), (selects_length _ _ _ Hb).
  rewrite !length_take, length_drop. lia.
Qed.

(** The two parts of a seeded split are a rearrangement of the rows of its
    argument. *)
Lemma seeded_split_Permutation arr test_size seed a b :
  seeded_split arr test_size seed = inr (a, b) ->
  rows b ++ rows a ≡ₚ rows arr.
Proof using rng_permutation_perm.
  intros H. apply seeded_split_inr in H
    as (n_train & n_test & _ & _ & _ & Hsum & _ & _ & Ha & Hb).
  set (permutation := (rng_permutation _ _).1) in *.
  assert (Hperm : permutation ≡ₚ seq 0 (length (rows arr)))
    by apply rng_permutation_perm.
  apply (selects_Permutation arr
           (take n_test permutation ++ take n_train (drop n_test permutation)));
    [|by apply selects_app].
  rewrite (take_ge (drop _ _)).
  - by rewrite take_drop.
  - rewrite length_drop, Hperm, length_seq. lia.
Qed.

Lemma pure_split_cell (df : DataFrame) :
  pure (split_cell df) (split_cell_value df).
Proof.
  unfold split_cell, split_cell_value.
  apply pure_bind; [apply pure_train_test_split|].
  intros [train_data test_data]; simpl.
  apply (pure_bind _ _ _ (fun s2 => inr (train_data, s2.1, s2.2)));
    [apply pure_train_test_split|].
  intros [validation_data test_data']. apply pure_ret.
Qed.

Lemma split_cell_value_inr df tr va te :
  split_cell_value df = inr (tr, va, te) <->
  exists held_out,
    seeded_split df Float64.lit_0_2 42 = inr (tr, held_out) /\
    seeded_split held_out Float64.lit_0_5 42 = inr (va, te).
Proof.
  unfold split_cell_value. split.
  - destruct (seeded_split df _ _) as [e|[tr' held_out]]; simpl; [done|].
    destruct (seeded_split held_out _ _) as [e|[va' te']] eqn:H2;
      simpl; [done|].
    intros H. simplify_eq. by exists held_out.
  - intros (held_out & -> & H). simpl. by rewrite H.
Qed.

(** The sizes of the three parts, from the sizes the two calls compute. *)
Lemma split_cell_value_sizes df (n_train n_held n_val n_test : nat) :
  validate_shuffle_split_float (Z.of_nat (length (rows df))) Float64.lit_0_2
    = inr (Z.of_nat n_train, Z.of_nat n_held) ->
  validate_shuffle_split_float (Z.of_nat n_held) Float64.lit_0_5
    = inr (Z.of_nat n_val, Z.of_nat n_test) ->
  (0 < n_train)%nat -> (0 < n_val)%nat -> (0 < n_test)%nat ->
  exists tr va te,
    split_cell_value df = inr (tr, va, te) /\
    length (rows tr) = n_train /\ length (rows va) = n_val /\
    length (rows te) = n_test.
Proof using rng_permutation_perm.
  intros H1 H2 Htrain Hval Htest.
  assert (Hheld : (0 < n_held)%nat).
  { apply validate_shuffle_split_float_inr in H2. lia. }
  destruct (seeded_split_ok df Float64.lit_0_2 42 n_train n_held H1)
    as (tr & held_out & Hs1 & Htr & Hlen); [done..|].
  rewrite <- Hlen in H2.
  destruct (seeded_split_ok held_out Float64.lit_0_5 42 n_val n_test H2)
    as (va & te & Hs2 & Hva & Hte); [done..|].
  exists tr, va, te. split; [|done].
  apply split_cell_value_inr. by exists held_out.
Qed.

(** For 6 to 2000 rows the sizes are the expected ones: computed for each. *)
Lemma sizes_as_expected_upto :
  forallb sizes_as_expected (seq 6 1995) = true.
Proof. vm_compute. reflexivity. Qed.

Lemma split_cell_value_upto df :
  (6 <= length (rows df) <= 2000)%nat ->
  let n := length (rows df) in
  exists tr va te,
    split_cell_value df = inr (tr, va, te) /\
    length (rows tr) = (n - held_out_size n)%nat /\
    length (rows va) = (held_out_size n - test_size_of n)%nat /\
    length (rows te) = test_size_of n.
Proof using rng_permutation_perm.
  intros Hn n.
  assert (Hsizes : sizes_as_expected n = true).
  { apply (proj1 (forallb_forall _ _) sizes_as_expected_upto).
    apply in_seq. unfold n. lia. }
  apply andb_true_iff in Hsizes as [H1 H2].
  apply bool_decide_eq_true_1 in H1, H2.
  assert (Hheld : (2 <= held_out_size n /\ 5 * held_out_size n <= n + 4)%nat).
  { unfold held_out_size.
    pose proof (Nat.div_mod_eq (n + 4) 5).
    pose proof (Nat.mod_upper_bound (n + 4) 5). unfold n in *. lia. }
  assert (Htest : (1 <= test_size_of n /\ 2 * test_size_of n
                   <= held_out_size n + 1)%nat).
  { unfold test_size_of.
    pose proof (Nat.div_mod_eq (held_out_size n + 1) 2).
    pose proof (Nat.mod_upper_bound (held_out_size n + 1) 2). lia. }
  apply (split_cell_value_sizes df _ _ _ _ H1 H2); unfold n in *; lia.
Qed.

(** A frame of 150 rows is split into 120, 15 and 15 rows. *)
Lemma split_cell_value_150 df :
  length (rows df) = 150%nat ->
  exists tr va te,
    split_cell_value df = inr (tr, va, te) /\
    length (rows tr) = 120%nat /\ length (rows va) = 15%nat /\
    length (rows te) = 15%nat.
Proof using rng_permutation_perm.
  intros Hlen.
  apply (split_cell_value_sizes df 120 30 15 15); try lia.
  - rewrite Hlen. vm_compute. reflexivity.
  - vm_compute. reflexivity.
Qed.

(** Fewer than 6 rows are too few for the two splits: a [ValueError]. *)
Lemma split_cell_value_below_6 df :
  (length (rows df) < 6)%nat -> split_cell_value df = inl ValueError.
Proof using rng_permutation_perm.
  intros Hn. unfold split_cell_value.
  assert (Hsmall : (length (rows df) < 2)%nat \/
                   (2 <= length (rows df) < 6)%nat) by lia.
  destruct Hsmall as [Hlt|Hge].
  - unfold seeded_split.
    assert (validate_shuffle_split_float (Z.of_nat (length (rows df)))
              Float64.lit_0_2 = inl ValueError) as ->; [|done].
    destruct (length (rows df)) as [|[|n]]; [by vm_compute..|lia].
  - destruct (seeded_split_ok df Float64.lit_0_2 42
                (length (rows df) - 1) 1)
      as (tr & held_out & -> & _ & Hheld); [|lia|lia|].
    { destruct (length (rows df)) as [|[|[|[|[|[|n]]]]]];
        try lia; by vm_compute. }
    simpl. unfold seeded_split. rewrite Hheld. by vm_compute.
Qed.

(** The three parts are a rearrangement of the rows of the frame. *)
Lemma split_cell_value_Permutation df tr va te :
  split_cell_value df = inr (tr, va, te) ->
  rows tr ++ rows va ++ rows te ≡ₚ rows df.
Proof using rng_permutation_perm.
  intros H. apply split_cell_value_inr in H as (held_out & H1 & H2).
  apply seeded_split_Permutation in H1, H2.
  rewrite <- H1, <- H2.
  rewrite (Permutation_app_comm (rows te) (rows va)).
  apply Permutation_app_comm.
Qed.

Lemma exn_mapM_ok {A B : Type} (f : A -> exn + B) (l : list A) :
  Forall (fun a => exists b, f a = inr b) l -> exists l', exn_mapM f l = inr l'.
Proof.
  induction 1 as [|a l [b Hb] _ [l' IH]]; [by exists []|].
  exists (b :: l'). simpl. by rewrite Hb, IH.
Qed.

Lemma of_int_label (t : Z) :
  0 <= t <= 2 -> exists y, Float64.of_int t = inr y.
Proof.
  intros Ht. assert (t = 0 \/ t = 1 \/ t = 2) as [ -> | [ -> | -> ] ] by lia;
    vm_compute; eauto.
Qed.

Lemma data_of_iris :
  is_iris_shaped load_iris = true ->
  exists df,
    data = inr df /\
    columns df = bunch_feature_names iris ++ ["target"] /\
    length (rows df) = 150%nat /\
    index df = seq 0 150 /\
    Forall iris_row (rows df).
Proof.
  unfold is_iris_shaped, data, iris_row, iris, np_c_.
  rewrite !andb_true_iff, !Nat.eqb_eq, !forallb_forall.
  intros ((((Hn & Hw) & Hm) & Hlab) & Hnames).
  rewrite Hn, Hm, Nat.eqb_refl.
  destruct (exn_mapM_ok Float64.of_int (bunch_target load_iris)) as [ts Hts].
  { apply Forall_forall. intros t Ht. apply of_int_label.
    apply list_elem_of_In, Hlab in Ht. lia. }
  rewrite Hts; cbn [exn_bind]. apply exn_mapM_inr in Hts.
  pose proof (Forall2_length _ _ _ Hts) as Hlts.
  set (arr := zip_with _ _ _).
  assert (Harr : length arr = 150%nat).
  { unfold arr. rewrite length_zip_with. lia. }
  assert (Hrow : forall i row, arr !! i = Some row ->
            exists feats lab y,
              bunch_data load_iris !! i = Some feats /\
              bunch_target load_iris !! i = Some lab /\
              Float64.of_int lab = inr y /\ length feats = 4%nat /\
              row = feats ++ [y]).
  { intros i row Hi. unfold arr in Hi.
    apply lookup_zip_with_Some in Hi as (feats & y & -> & Hf & Hy).
    destruct (Forall2_lookup_r _ _ _ _ _ Hts Hy) as (lab & Hl & Hly).
    exists feats, lab, y. repeat split; try done.
    apply Nat.eqb_eq, Hw, list_elem_of_In. by eapply list_elem_of_lookup_2. }
  unfold pd_DataFrame.
  assert (forallb (fun r => Nat.eqb (length r)
             (length (bunch_feature_names load_iris ++ ["target"]))) arr
          = true) as ->.
  { apply forallb_forall. intros row Hin.
    apply list_elem_of_In, list_elem_of_lookup in Hin as [i Hi].
    destruct (Hrow i row Hi) as (feats & lab & y & _ & _ & _ & Hlen & ->).
    apply Nat.eqb_eq. rewrite !length_app. simpl. lia. }
  eexists. split; [reflexivity|]. unfold index. cbn [rows columns].
  split; [done|]. split; [rewrite length_zip, length_seq; lia|].
  split.
  - rewrite <- Harr. apply fst_zip. rewrite length_seq. lia.
  - apply Forall_lookup. intros i [k row] Hi.
    apply lookup_zip_with_Some in Hi as (k' & row' & Heq & Hk & Hr).
    simplify_eq. apply lookup_seq in Hk as [Hk _]. cbn [fst snd].
    rewrite Nat.add_0_l in Hk. subst k'. by apply Hrow.
Qed.

Lemma split_on_no_sep c f :
  string_mem c f = false -> split_on c f = [f].
Proof.
  induction f as [|d f IH]; simpl; [done|].
  rewrite (Ascii.eqb_sym c d). intros [Hd Hf]%orb_false_iff.
  by rewrite Hd, IH.
Qed.

Lemma split_on_app c f rest :
  string_mem c f = false ->
  split_on c (f +:+ String c rest) = f :: split_on c rest.
Proof.
  induction f as [|d f IH]; simpl.
  - by rewrite Ascii.eqb_refl.
  - rewrite (Ascii.eqb_sym c d). intros [Hd Hf]%orb_false_iff.
    by rewrite Hd, IH.
Qed.

Lemma split_on_join c fields :
  fields <> [] -> Forall (fun f => string_mem c f = false) fields ->
  split_on c (string_join (String c EmptyString) fields) = fields.
Proof.
  intros Hne Hall. induction Hall as [|f fs Hf Hfs IH]; [done|].
  destruct fs as [|g fs]; simpl.
  - by apply split_on_no_sep.
  - change (split_on c (f +:+ String c (string_join (String c EmptyString)
                                                     (g :: fs)))
            = f :: g :: fs).
    rewrite split_on_app by done. f_equal. by apply IH.
Qed.

Lemma string_mem_join c sep fields :
  string_mem c sep = false ->
  Forall (fun f => string_mem c f = false) fields ->
  string_mem c (string_join sep fields) = false.
Proof.
  intros Hsep. induction 1 as [|f fs Hf Hfs IH]; [done|].
  destruct fs as [|g fs]; [done|].
  change (string_mem c (f +:+ sep +:+ string_join sep (g :: fs)) = false).
  by rewrite !string_mem_app, Hf, Hsep, IH.
Qed.

Lemma csv_lines_text (lines : list (list string)) :
  Forall (fun r => string_mem LF (csv_row r) = false) lines ->
  csv_lines (csv_text lines) = map csv_row lines.
Proof.
  intros Hall. unfold csv_lines.
  assert (split_on LF (csv_text lines) = map csv_row lines ++ [EmptyString])
    as ->.
  { induction Hall as [|r rs Hr _ IH]; [done|].
    cbn [csv_text map]. by rewrite split_on_app, IH. }
  by rewrite last_snoc, removelast_last.
Qed.

Lemma plain_field_spec s :
  plain_field s = true ->
  csv_field s = s /\ s <> EmptyString /\
  string_mem COMMA s = false /\ string_mem LF s = false.
Proof.
  unfold plain_field, csv_field, needs_quote.
  intros [Hq Hne]%andb_true_iff. apply negb_true_iff in Hq, Hne.
  rewrite Hq. apply String.eqb_neq in Hne.
  apply orb_false_iff in Hq as [[[H1 H2]%orb_false_iff H3]%orb_false_iff H4].
  done.
Qed.

(** A record of plain fields is written as the fields joined by commas. *)
Lemma csv_row_plain fields :
  fields <> [] -> Forall (fun f => plain_field f = true) fields ->
  csv_row fields = string_join (String COMMA EmptyString) fields /\
  string_mem LF (csv_row fields) = false /\
  csv_fields (csv_row fields) = fields.
Proof.
  intros Hne Hall.
  assert (Hmap : map csv_field fields = fields).
  { clear Hne. induction Hall as [|f fs Hf _ IH]; [done|]. simpl.
    destruct (plain_field_spec f Hf) as [-> _]. by f_equal. }
  assert (Hrow : csv_row fields
                 = string_join (String COMMA EmptyString) fields).
  { unfold csv_row. rewrite Hmap.
    destruct fields as [|f [|g fs]]; [done| |by destruct f].
    destruct f; [|done].
    apply Forall_inv in Hall.
    by apply plain_field_spec in Hall as (_ & ? & _). }
  rewrite Hrow. split; [done|]. split.
  - apply string_mem_join; [done|].
    eapply Forall_impl; [exact Hall|]. intros f Hf.
    by apply plain_field_spec in Hf as (_ & _ & _ & ?).
  - apply split_on_join; [done|].
    eapply Forall_impl; [exact Hall|]. intros f Hf.
    by apply plain_field_spec in Hf as (_ & _ & ? & _).
Qed.

(** What [to_csv(index=False, header=False)] writes for a frame of plain
    cells: a line per row, a field per cell. *)
Lemma exported_lines df :
  plain_cells df ->
  Forall2 (fun line (r : nat * list spec_float) =>
             csv_fields line = map float_repr r.2)
          (csv_lines (exported df)) (rows df).
Proof.
  intros Hplain. unfold exported, csv_records; simpl.
  assert (Hrows : Forall (fun r : nat * list spec_float =>
                    string_mem LF (csv_row (map float_repr r.2)) = false /\
                    csv_fields (csv_row (map float_repr r.2))
                      = map float_repr r.2) (rows df)).
  { eapply Forall_impl; [exact Hplain|].
    intros [k cells] [Hne Hcells]; simpl in *.
    destruct (csv_row_plain (map float_repr cells)) as (_ & ? & ?); [| |done].
    - by destruct cells.
    - by apply Forall_fmap. }
  rewrite csv_lines_text.
  - rewrite map_map. apply Forall2_fmap_l, Forall_Forall2_diag.
    eapply Forall_impl; [exact Hrows|]. by intros r [_ ?].
  - apply Forall_fmap. eapply Forall_impl; [exact Hrows|]. by intros r [? _].
Qed.

Lemma parse_exported df :
  plain_cells df -> readable_cells df ->
  parse_csv (exported df) = Some (values df).
Proof.
  intros Hplain Hread. unfold parse_csv, values.
  apply mapM_Some, Forall2_fmap_r.
  pose proof (exported_lines df Hplain) as Hlines.
  revert Hread. unfold readable_cells.
  induction Hlines as [|line r ls rs Hline _ IH]; intros Hread; [constructor|].
  apply Forall_cons in Hread as [Hr Hrs]. constructor; [|by apply IH].
  rewrite Hline. apply mapM_Some, Forall2_fmap_l, Forall_Forall2_diag.
  exact Hr.
Qed.

(** *** Cells 5 and 10, and the whole run *)

Lemma upload_cell_run train_data validation_data w :
  upload_cell train_data validation_data w
  = (inr tt, world_after_upload train_data validation_data w).
Proof.
  unfold upload_cell, bind, to_csv, upload_file; simpl.
  rewrite lookup_insert_ne by done. rewrite lookup_insert_eq. simpl.
  by rewrite lookup_insert_eq.
Qed.

Lemma notebook_run df tr va te w :
  data = inr df -> split_cell_value df = inr (tr, va, te) ->
  notebook w
  = (inr (tr, va, te), world_after_submit (world_after_upload tr va w)).
Proof.
  intros Hdata Hsplit. unfold notebook, bind, lift. rewrite Hdata.
  rewrite (pure_split_cell df w), Hsplit.
  by rewrite upload_cell_run.
Qed.

Lemma string_prefix_app a b c :
  String.prefix (a +:+ b) (a +:+ c) = String.prefix b c.
Proof.
  induction a as [|d a IH]; simpl; [done|].
  by destruct (ascii_dec d d).
Qed.

(** *** Properties of the partitioning cell *)

(** C1: the frame built from the 150-sample dataset is split, with seed 42
    and test sizes 0.2 and then 0.5, into 120 training rows, 15 validation
    rows and 15 test rows: 0.8, 0.1 and 0.1 of the 150 rows. *)
Theorem iris_partition_sizes (w : World) :
  is_iris_shaped load_iris = true ->
  exists df tr va te,
    data = inr df /\ length (rows df) = 150%nat /\
    split_cell df w = (inr (tr, va, te), w) /\
    length (rows tr) = 120%nat /\
    length (rows va) = 15%nat /\
    length (rows te) = 15%nat /\
    (10 * length (rows tr) = 8 * length (rows df))%nat /\
    (10 * length (rows va) = length (rows df))%nat /\
    (10 * length (rows te) = length (rows df))%nat.
Proof using rng_permutation_perm.
  intros Hshape.
  destruct (data_of_iris Hshape) as (df & Hdata & _ & Hlen & _).
  destruct (split_cell_value_150 df Hlen)
    as (tr & va & te & H & Htr & Hva & Hte).
  exists df, tr, va, te. rewrite (pure_split_cell df w), H, Htr, Hva, Hte, Hlen.
  repeat split; done.
Qed.

(** C2, as the code has it: for a frame of [n] rows, [n] from 6 to 2000,
    the partitioning cell holds out a fifth of the rows, rounded up, and
    halves that, so the training part is within a row of [0.8 n] and is more
    than [0.6 n], and the validation and test parts are each less than
    [0.2 n].  The split is 80/10/10, not 60/20/20. *)
Theorem split_is_80_10_10_not_60_20_20 (df : DataFrame) (w : World) :
  (6 <= length (rows df) <= 2000)%nat ->
  let n := length (rows df) in
  exists tr va te,
    split_cell df w = (inr (tr, va, te), w) /\
    length (rows tr) = (n - held_out_size n)%nat /\
    length (rows va) = (held_out_size n - test_size_of n)%nat /\
    length (rows te) = test_size_of n /\
    (4 * n <= 5 * length (rows tr) + 4 /\ 5 * length (rows tr) <= 4 * n)%nat /\
    (3 * n < 5 * length (rows tr))%nat /\
    (5 * length (rows va) < n)%nat /\
    (5 * length (rows te) < n)%nat.
Proof using rng_permutation_perm.
  intros Hn n.
  destruct (split_cell_value_upto df Hn)
    as (tr & va & te & H & Htr & Hva & Hte).
  exists tr, va, te. rewrite (pure_split_cell df w), H.
  fold n in Htr, Hva, Hte. rewrite Htr, Hva, Hte.
  assert (Hheld : (n <= 5 * held_out_size n <= n + 4)%nat).
  { unfold held_out_size.
    pose proof (Nat.div_mod_eq (n + 4) 5).
    pose proof (Nat.mod_upper_bound (n + 4) 5). lia. }
  assert (Htest : (held_out_size n <= 2 * test_size_of n
                   <= held_out_size n + 1)%nat).
  { unfold test_size_of.
    pose proof (Nat.div_mod_eq (held_out_size n + 1) 2).
    pose proof (Nat.mod_upper_bound (held_out_size n + 1) 2). lia. }
  unfold n in *. repeat split; try done; lia.
Qed.

(** C3: whenever the partitioning cell returns, for a frame whose row labels
    are distinct, no row label occurs in two of the three partitions, the
    partitions together hold exactly the rows of the frame, and their sizes
    add up to the number of rows of the frame. *)
Theorem partitions_disjoint_and_cover (df : DataFrame) (w : World)
    (tr va te : DataFrame) :
  NoDup (index df) ->
  (split_cell df w).1 = inr (tr, va, te) ->
  (forall i, i ∈ index tr -> i ∉ index va) /\
  (forall i, i ∈ index tr -> i ∉ index te) /\
  (forall i, i ∈ index va -> i ∉ index te) /\
  rows tr ++ rows va ++ rows te ≡ₚ rows df /\
  (length (rows tr) + length (rows va) + length (rows te)
   = length (rows df))%nat.
Proof using rng_permutation_perm.
  intros Hnodup. rewrite (pure_split_cell df w). simpl. intros Hsplit.
  apply split_cell_value_Permutation in Hsplit as Hperm.
  assert (Hidx : NoDup (index tr ++ index va ++ index te)).
  { unfold index. rewrite <- !fmap_app, Hperm. exact Hnodup. }
  apply NoDup_app in Hidx as (_ & Htr & Hrest).
  apply NoDup_app in Hrest as (_ & Hva & _).
  repeat split.
  - intros i Hi Hi'. apply (Htr i Hi). apply elem_of_app. by left.
  - intros i Hi Hi'. apply (Htr i Hi). apply elem_of_app. by right.
  - exact Hva.
  - exact Hperm.
  - rewrite <- Hperm, !length_app. lia.
Qed.

(** C4: with the seed fixed at 42 the partitioning cell returns the same
    train, validation and test frames for the same frame whatever the state
    of the world it runs in, in particular when it is run a second time
    after the first; it leaves the world as it found it. *)
Theorem split_cell_deterministic (df : DataFrame) (w1 w2 : World) :
  (split_cell df w1).1 = (split_cell df w2).1 /\
  (split_cell df (split_cell df w1).2).1 = (split_cell df w1).1 /\
  (split_cell df w1).2 = w1.
Proof.
  by rewrite !(pure_split_cell df).
Qed.

(** *** Properties of the configuration and of the export *)

(** C5: the search space has one continuous range, named [eta] with bounds
    0.1 and 0.5, one integer range, named [max_depth] with bounds 2 and 5,
    and no categorical range; no name is listed twice over the three
    kinds.  The bounds are the strings the literal holds. *)
Theorem search_space_entries :
  (exists entry,
     getpath ["ParameterRanges"; "ContinuousParameterRanges"] tuning_job_config
       = Some (PList [entry]) /\
     getitem "Name" entry = Some (PStr "eta") /\
     getitem "MinValue" entry = Some (PStr "0.1") /\
     getitem "MaxValue" entry = Some (PStr "0.5")) /\
  (exists entry,
     getpath ["ParameterRanges"; "IntegerParameterRanges"] tuning_job_config
       = Some (PList [entry]) /\
     getitem "Name" entry = Some (PStr "max_depth") /\
     getitem "MinValue" entry = Some (PStr "2") /\
     getitem "MaxValue" entry = Some (PStr "5")) /\
  getpath ["ParameterRanges"; "CategoricalParameterRanges"] tuning_job_config
    = Some (PList []) /\
  parameter_names tuning_job_config = ["eta"; "max_depth"] /\
  NoDup (parameter_names tuning_job_config).
Proof.
  split; [eexists; repeat split; reflexivity|].
  split; [eexists; repeat split; reflexivity|].
  split; [reflexivity|].
  assert (Hnames : parameter_names tuning_job_config = ["eta"; "max_depth"])
    by reflexivity.
  split; [exact Hnames|]. rewrite Hnames.
  apply NoDup_cons. split; [|apply NoDup_singleton].
  by intros ?%list_elem_of_singleton.
Qed.

(** C6: the resource limits allow 2 training jobs in parallel and 4 in
    total, and 2 is at most 4. *)
Theorem resource_limits :
  exists parallel total : Z,
    getpath ["ResourceLimits"; "MaxParallelTrainingJobs"] tuning_job_config
      = Some (PInt parallel) /\
    getpath ["ResourceLimits"; "MaxNumberOfTrainingJobs"] tuning_job_config
      = Some (PInt total) /\
    parallel = 2 /\ total = 4 /\ parallel <= total.
Proof. exists 2, 4. repeat split; [reflexivity..|lia]. Qed.

Lemma string_prefix_self a b : String.prefix a (a +:+ b) = true.
Proof.
  induction a as [|d a IH]; simpl.
  - change ("" +:+ b) with b. by destruct b.
  - by destruct (ascii_dec d d).
Qed.

(** C7: the objective minimizes [validation:rmse]; the job definition has
    exactly two input channels, named [train] and [validation], whose URIs
    are [s3://bucket/DEMO-iris-hpo-xgboost/train] and
    [s3://bucket/DEMO-iris-hpo-xgboost/validation/]; when cell 5 returns it
    has left the exported train and validation frames in that bucket under
    the keys [DEMO-iris-hpo-xgboost/train/train.csv] and
    [DEMO-iris-hpo-xgboost/validation/validation.csv], so the URI of each
    object is the URI of its channel followed by [/train.csv] and by
    [validation.csv]; the runtime bound is 1800 seconds and the instance
    count is 1. *)
Theorem job_configuration (train_data validation_data : DataFrame)
    (w w' : World) :
  upload_cell train_data validation_data w = (inr tt, w') ->
  let train_uri := "s3://" +:+ bucket +:+ "/DEMO-iris-hpo-xgboost/train" in
  let validation_uri :=
    "s3://" +:+ bucket +:+ "/DEMO-iris-hpo-xgboost/validation/" in
  getpath ["HyperParameterTuningJobObjective"; "Type"] tuning_job_config
    = Some (PStr "Minimize") /\
  getpath ["HyperParameterTuningJobObjective"; "MetricName"] tuning_job_config
    = Some (PStr "validation:rmse") /\
  (exists train_channel validation_channel,
     getitem "InputDataConfig" training_job_definition
       = Some (PList [train_channel; validation_channel]) /\
     getitem "ChannelName" train_channel = Some (PStr "train") /\
     getitem "ChannelName" validation_channel = Some (PStr "validation") /\
     channel_uri train_channel = Some (PStr train_uri) /\
     channel_uri validation_channel = Some (PStr validation_uri)) /\
  (s3_input_train = train_uri /\
   s3_input_validation = validation_uri /\
   train_key = "DEMO-iris-hpo-xgboost/train/train.csv" /\
   validation_key = "DEMO-iris-hpo-xgboost/validation/validation.csv" /\
   s3 w' !! (bucket, train_key) = Some (exported train_data) /\
   s3 w' !! (bucket, validation_key) = Some (exported validation_data) /\
   object_uri bucket train_key = train_uri +:+ "/train.csv" /\
   object_uri bucket validation_key = validation_uri +:+ "validation.csv" /\
   String.prefix train_uri (object_uri bucket train_key) = true /\
   String.prefix validation_uri (object_uri bucket validation_key) = true) /\
  getpath ["StoppingCondition"; "MaxRuntimeInSeconds"] training_job_definition
    = Some (PInt 1800) /\
  getpath ["ResourceConfig"; "InstanceCount"] training_job_definition
    = Some (PInt 1).
Proof.
  intros Hrun train_uri validation_uri.
  rewrite upload_cell_run in Hrun. injection Hrun as <-.
  assert (Htrain : object_uri bucket train_key = train_uri +:+ "/train.csv").
  { unfold object_uri, train_uri. rewrite !string_app_assoc. reflexivity. }
  assert (Hvalidation :
            object_uri bucket validation_key
            = validation_uri +:+ "validation.csv").
  { unfold object_uri, validation_uri. rewrite !string_app_assoc.
    reflexivity. }
  split; [reflexivity|]. split; [reflexivity|].
  split; [eexists _, _; repeat split; reflexivity|].
  split; [|split; reflexivity].
  cbn [world_after_upload s3].
  split; [reflexivity|]. split; [reflexivity|].
  split; [reflexivity|]. split; [reflexivity|].
  split.
  { rewrite lookup_insert_ne by (by intros [= ?]).
    by rewrite lookup_insert_eq. }
  split; [by rewrite lookup_insert_eq|].
  split; [exact Htrain|]. split; [exact Hvalidation|].
  rewrite Htrain, Hvalidation. split; apply string_prefix_self.
Qed.

(** Cells that are finite doubles are written by Python's [repr] as plain
    fields that Python's [float] reads back. *)
Lemma python_text_cells df :
  (forall x, float_repr x = PyFloat.repr x) ->
  (forall s, float_parse s = PyFloat.float s) ->
  finite_cells df -> plain_cells df /\ readable_cells df.
Proof.
  intros Hrepr Hparse Hfin. split.
  - eapply Forall_impl; [exact Hfin|]. intros r [Hne Hcells].
    split; [done|]. eapply Forall_impl; [exact Hcells|].
    intros x Hx. rewrite Hrepr. by apply repr_plain.
  - eapply Forall_impl; [exact Hfin|]. intros r [_ Hcells].
    eapply Forall_impl; [exact Hcells|].
    intros x Hx. rewrite Hrepr, Hparse. by apply float_repr_round_trip.
Qed.


Lemma stored_after_run tr va w :
  let w' := world_after_submit (world_after_upload tr va w) in
  s3 w' !! (bucket, train_key) = Some (exported tr) /\
  s3 w' !! (bucket, validation_key) = Some (exported va).
Proof.
  cbn [world_after_submit world_after_upload s3]. split.
  - rewrite lookup_insert_ne by (by intros [= ?]).
    by rewrite lookup_insert_eq.
  - by rewrite lookup_insert_eq.
Qed.

Lemma plain_iris_row r :
  plain_dataset = true -> iris_row r ->
  r.2 <> [] /\ Forall (fun x => plain_field (float_repr x) = true) r.2.
Proof.
  unfold plain_dataset. rewrite andb_true_iff, !forallb_forall.
  intros [Hfeats Hlabs] (feats & lab & y & Hf & Hl & Hy & _ & ->).
  split; [by destruct feats|].
  apply Forall_app. split.
  - apply list_elem_of_lookup_2, list_elem_of_In, Hfeats in Hf.
    apply Forall_forall. intros x Hx.
    by apply (proj1 (forallb_forall _ _) Hf), list_elem_of_In.
  - apply Forall_singleton.
    apply list_elem_of_lookup_2, list_elem_of_In, Hlabs in Hl.
    by rewrite Hy in Hl.
Qed.

Lemma sample_lines df part :
  plain_dataset = true -> Forall iris_row (rows df) ->
  (forall r, r ∈ rows part -> r ∈ rows df) ->
  Forall2 sample_line (csv_lines (exported part)) (rows part).
Proof.
  intros Hplain Hdf Hsub.
  assert (Hrows : Forall iris_row (rows part)).
  { apply Forall_forall. intros r Hr.
    by apply (proj1 (Forall_forall _ _) Hdf), Hsub. }
  assert (Hpart : plain_cells part).
  { eapply Forall_impl; [exact Hrows|]. intros r. by apply plain_iris_row. }
  pose proof (exported_lines part Hpart) as Hlines.
  clear Hsub Hpart. induction Hlines as [|line r ls rs Hline _ IH];
    [constructor|].
  apply Forall_cons in Hrows as [Hr Hrs]. constructor; [|by apply IH].
  destruct Hr as (feats & lab & y & Hf & Hl & Hy & Hlen & Hcells).
  exists feats, lab, y. rewrite Hline, Hcells, map_app. simpl.
  repeat split; try done.
  rewrite length_app, length_map. simpl. lia.
Qed.




End Properties.

(** ** Further properties of the cells *)

Section Further.

Context {env : Environment}.

(** [rng.permutation(n)] returns the numbers below [n] in some order. *)
Hypothesis rng_permutation_perm :
  forall (st : RandomState) (n : nat), (rng_permutation st n).1 ≡ₚ seq 0 n.

(** *** Cell 4 *)

(** X1: for a frame of at most 2000 rows, cell 4 raises [ValueError], and
    leaves the world as it was, exactly when the frame has fewer than 6
    rows. *)
Theorem split_cell_raises_iff_too_few_rows (df : DataFrame) (w : World) :
  (length (rows df) <= 2000)%nat ->
  (split_cell df w = (inl ValueError, w) <-> (length (rows df) < 6)%nat).
Proof using rng_permutation_perm.
  intros Hmax. rewrite (pure_split_cell df w). split.
  - intros Heq. destruct (decide (length (rows df) < 6)%nat) as [|Hge]; [done|].
    destruct (split_cell_value_upto rng_permutation_perm df)
      as (tr & va & te & H & _); [lia|].
    rewrite H in Heq. by inversion Heq.
  - intros Hlt. by rewrite (split_cell_value_below_6 rng_permutation_perm).
Qed.

Lemma seeded_split_parts arr test_size seed a b :
  seeded_split arr test_size seed = inr (a, b) ->
  (0 < length (rows a))%nat /\ (0 < length (rows b))%nat /\
  columns a = columns arr /\ columns b = columns arr.
Proof using rng_permutation_perm.
  intros H. apply seeded_split_inr in H
    as (n_train & n_test & _ & Htrain & Htest & Hsum & Hca & Hcb & Ha & Hb).
  set (permutation := (rng_permutation _ _).1) in *.
  assert (Hlen : length permutation = length (rows arr)).
  { unfold permutation. by rewrite rng_permutation_perm, length_seq. }
  rewrite (selects_length _ _ _ Ha), (selects_length _ _ _ Hb).
  rewrite !length_take, length_drop. repeat split; try done; lia.
Qed.

(** X2: when cell 4 returns, none of the three parts is empty, each has the
    columns of the frame, every row of a part is a row of the frame, and in a
    frame of distinct labels no part repeats a label. *)
Theorem partitions_nonempty_same_columns (df : DataFrame) (w : World)
    (tr va te : DataFrame) :
  (split_cell df w).1 = inr (tr, va, te) ->
  ((0 < length (rows tr))%nat /\ (0 < length (rows va))%nat /\
   (0 < length (rows te))%nat) /\
  (columns tr = columns df /\ columns va = columns df /\
   columns te = columns df) /\
  (forall r, r ∈ rows tr ++ rows va ++ rows te -> r ∈ rows df) /\
  (NoDup (index df) ->
   NoDup (index tr) /\ NoDup (index va) /\ NoDup (index te)).
Proof using rng_permutation_perm.
  rewrite (pure_split_cell df w). simpl. intros Hsplit.
  pose proof (split_cell_value_Permutation rng_permutation_perm _ _ _ _ Hsplit)
    as Hperm.
  apply split_cell_value_inr in Hsplit as (held_out & H1 & H2).
  apply seeded_split_parts in H1 as (Htr & _ & Hctr & Hcheld).
  apply seeded_split_parts in H2 as (Hva & Hte & Hcva & Hcte).
  split; [done|]. split; [by rewrite Hcva, Hcte, Hcheld|]. split.
  - intros r Hr. by rewrite <- Hperm.
  - intros Hnodup.
    assert (Hidx : NoDup (index tr ++ index va ++ index te)).
    { unfold index. rewrite <- !fmap_app, Hperm. exact Hnodup. }
    apply NoDup_app in Hidx as (Htr' & _ & Hrest).
    by apply NoDup_app in Hrest as (Hva' & _ & Hte').
Qed.

(** *** Cell 3 *)

Lemma forallb_width_zip_with (data : list (list spec_float))
    (ts : list spec_float) (names : list string) :
  length data = length ts ->
  forallb (fun r => Nat.eqb (length r) (length (names ++ ["target"])))
          (zip_with (fun r y => r ++ [y]) data ts)
  = forallb (fun r => Nat.eqb (length r) (length names)) data.
Proof.
  revert ts. induction data as [|r data IH]; intros [|y ts] Hlen;
    try done. cbn [zip_with forallb]. rewrite IH by (simpl in Hlen; lia).
  f_equal. rewrite !length_app. cbn [length]. by rewrite !Nat.add_1_r.
Qed.

Lemma labels_convert_mapM (b : Bunch) :
  labels_convert b = true ->
  exists ts, exn_mapM Float64.of_int (bunch_target b) = inr ts.
Proof.
  unfold labels_convert. rewrite forallb_forall. intros Hall.
  apply exn_mapM_ok, Forall_forall. intros t Ht.
  apply list_elem_of_In, Hall in Ht.
  destruct (Float64.of_int t) as [e|y]; [done|by exists y].
Qed.

Lemma data_of_bunch :
  bunch_shape_ok load_iris = true -> labels_convert load_iris = true ->
  bunch_data load_iris <> [] ->
  exists df,
    data = inr df /\
    shape df = (length (bunch_data iris),
                S (length (bunch_feature_names iris))) /\
    columns df = bunch_feature_names iris ++ ["target"] /\
    index df = seq 0 (length (bunch_data iris)) /\
    (forall i feats lab,
       bunch_data iris !! i = Some feats ->
       bunch_target iris !! i = Some lab ->
       exists y, Float64.of_int lab = inr y /\
                 rows df !! i = Some (i, feats ++ [y])).
Proof.
  unfold bunch_shape_ok, data, iris, np_c_, shape.
  rewrite andb_true_iff. intros [Hlen Hwidth] Hconv _. rewrite Hlen.
  apply Nat.eqb_eq in Hlen.
  destruct (labels_convert_mapM _ Hconv) as [ts Hts].
  rewrite Hts; cbn [exn_bind]. apply exn_mapM_inr in Hts.
  pose proof (Forall2_length _ _ _ Hts) as Hlts.
  unfold pd_DataFrame.
  rewrite forallb_width_zip_with, Hwidth by lia.
  set (arr := zip_with (fun r y => r ++ [y]) _ _).
  assert (Harr : length arr = length (bunch_data load_iris)).
  { unfold arr. rewrite length_zip_with. lia. }
  eexists. split; [reflexivity|]. unfold index. cbn [rows columns].
  split; [|split; [done|split]].
  - rewrite length_zip, length_seq, Harr, length_app. cbn [length].
    f_equal; lia.
  - rewrite <- Harr. apply fst_zip. rewrite length_seq. lia.
  - intros i feats lab Hf Hl.
    destruct (Forall2_lookup_l _ _ _ _ _ Hts Hl) as (y & Hy & Hly).
    exists y. split; [done|].
    apply lookup_zip_with_Some. exists i, (feats ++ [y]).
    split; [done|]. split.
    + apply lookup_seq. split; [done|]. rewrite Harr.
      by apply lookup_lt_Some in Hf.
    + unfold arr. apply lookup_zip_with_Some. by exists feats, y.
Qed.

(** X3: for a dataset of at least one sample, with as many labels as
    samples, as many features in every sample as feature names, and labels
    that convert, cell 3 builds a frame with a row per sample and a column
    more than there are features: the columns are the feature names and then
    [target], the labels are 0, 1, 2, ..., and row [i] holds the features of
    sample [i] and then its label as a double. *)
Theorem data_of_well_formed_dataset :
  bunch_shape_ok load_iris = true -> labels_convert load_iris = true ->
  bunch_data load_iris <> [] ->
  exists df,
    data = inr df /\
    shape df = (length (bunch_data iris),
                S (length (bunch_feature_names iris))) /\
    columns df = bunch_feature_names iris ++ ["target"] /\
    index df = seq 0 (length (bunch_data iris)) /\
    (forall i feats lab,
       bunch_data iris !! i = Some feats ->
       bunch_target iris !! i = Some lab ->
       exists y, Float64.of_int lab = inr y /\
                 rows df !! i = Some (i, feats ++ [y])).
Proof. exact data_of_bunch. Qed.

(** X4: when the labels convert but the dataset has a number of labels other
    than its number of samples, or a sample whose number of features is not
    the number of feature names, cell 3 raises [ValueError] and the run stops
    there: no file is written, no object stored and no request sent. *)
Theorem malformed_dataset_raises (w : World) :
  labels_convert load_iris = true -> bunch_shape_ok load_iris = false ->
  data = inl ValueError /\ notebook w = (inl ValueError, w).
Proof.
  intros Hconv Hshape.
  assert (Hdata : data = inl ValueError).
  { revert Hshape. unfold bunch_shape_ok, data, iris, np_c_.
    destruct (Nat.eqb_spec (length (bunch_data load_iris))
                (length (bunch_target load_iris))) as [Hlen|Hlen]; [|done].
    simpl. intros Hwidth.
    destruct (labels_convert_mapM _ Hconv) as [ts Hts].
    rewrite Hts; cbn [exn_bind]. apply exn_mapM_inr in Hts.
    pose proof (Forall2_length _ _ _ Hts) as Hlts.
    unfold pd_DataFrame.
    by rewrite forallb_width_zip_with, Hwidth by lia. }
  split; [done|]. unfold notebook, bind, lift. by rewrite Hdata.
Qed.

(** X5: a well-formed dataset of at least one and fewer than 6 samples
    passes cell 3 and makes cell 4 raise [ValueError]; the run stops there
    with the world as it was: no file is written, no object stored and no
    request sent. *)
Theorem too_few_samples_abort (w : World) :
  bunch_shape_ok load_iris = true -> labels_convert load_iris = true ->
  (0 < length (bunch_data iris) < 6)%nat ->
  (exists df, data = inr df) /\ notebook w = (inl ValueError, w).
Proof using rng_permutation_perm.
  intros Hshape Hconv [Hpos Hlt].
  destruct (data_of_bunch Hshape Hconv) as (df & Hdata & Hsh & _).
  { unfold iris in Hpos. intros Hnil. rewrite Hnil in Hpos.
    simpl in Hpos. lia. }
  split; [by exists df|].
  unfold notebook, bind, lift. rewrite Hdata.
  rewrite (pure_split_cell df w).
  rewrite (split_cell_value_below_6 rng_permutation_perm); [done|].
  unfold shape in Hsh. by injection Hsh as -> _.
Qed.

(** *** Cell 5 *)

(** X6: when cell 5 returns, the two local files hold the exported text of
    the two frames and the two objects hold what the files hold; every other
    file, every other object of any bucket, the request list and numpy's
    generator are as before. *)
Theorem upload_cell_footprint (train_data validation_data : DataFrame)
    (w w' : World) :
  upload_cell train_data validation_data w = (inr tt, w') ->
  files w' !! "train.csv" = Some (exported train_data) /\
  files w' !! "validation.csv" = Some (exported validation_data) /\
  s3 w' !! (bucket, train_key) = files w' !! "train.csv" /\
  s3 w' !! (bucket, validation_key) = files w' !! "validation.csv" /\
  (forall name, name <> "train.csv" -> name <> "validation.csv" ->
     files w' !! name = files w !! name) /\
  (forall b key, (b, key) <> (bucket, train_key) ->
     (b, key) <> (bucket, validation_key) ->
     s3 w' !! (b, key) = s3 w !! (b, key)) /\
  requests w' = requests w /\
  np_random w' = np_random w.
Proof.
  rewrite upload_cell_run. intros [= <-].
  cbn [world_after_upload files s3 requests np_random].
  assert (Hfiles : "validation.csv" <> "train.csv") by done.
  assert (Hkeys : (bucket, validation_key) <> (bucket, train_key))
    by (by intros [= ?]).
  repeat split.
  - rewrite lookup_insert_ne by done. by rewrite lookup_insert_eq.
  - by rewrite lookup_insert_eq.
  - rewrite (lookup_insert_ne _ _ _ _ Hkeys), (lookup_insert_ne _ _ _ _ Hfiles).
    by rewrite !lookup_insert_eq.
  - by rewrite !lookup_insert_eq.
  - intros name H1 H2. by rewrite !lookup_insert_ne.
  - intros b key H1 H2. by rewrite !lookup_insert_ne.
Qed.

Lemma world_after_upload_twice tr1 va1 tr2 va2 (w : World) :
  world_after_upload tr2 va2 (world_after_upload tr1 va1 w)
  = world_after_upload tr2 va2 w.
Proof.
  unfold world_after_upload. cbn [np_random files s3 requests].
  assert (Hkeys : (bucket, train_key) <> (bucket, validation_key))
    by (by intros [= ?]).
  f_equal.
  - rewrite (insert_insert_ne _ "train.csv" "validation.csv") by done.
    by rewrite insert_insert_eq, insert_insert_eq.
  - rewrite (insert_insert_ne _ (bucket, train_key) (bucket, validation_key))
      by done.
    by rewrite insert_insert_eq, insert_insert_eq.
Qed.

(** X7: cell 5 overwrites: run after an earlier run of cell 5 on any frames,
    it leaves the world it would have left without the earlier run; in
    particular running it twice on the same frames is running it once. *)
Theorem upload_cell_overwrites (tr1 va1 tr2 va2 : DataFrame) (w : World) :
  upload_cell tr2 va2 (upload_cell tr1 va1 w).2 = upload_cell tr2 va2 w /\
  upload_cell tr1 va1 (upload_cell tr1 va1 w).2 = upload_cell tr1 va1 w.
Proof.
  rewrite !upload_cell_run. cbn [snd].
  by rewrite !world_after_upload_twice.
Qed.

(** *** Export *)

Lemma csv_text_app (l1 l2 : list (list string)) :
  csv_text (l1 ++ l2) = csv_text l1 +:+ csv_text l2.
Proof.
  induction l1 as [|r l1 IH]; [done|].
  cbn [app csv_text]. rewrite IH. symmetry.
  exact (string_app_assoc (csv_row r) (String LF (csv_text l1)) (csv_text l2)).
Qed.

(** X8: the exported text depends on the cell values of a frame alone, not on
    its column names nor on its row labels; and the text of a frame whose
    rows are those of one frame followed by those of another is the text of
    the one followed by the text of the other. *)
Theorem exported_values_only_and_concatenates :
  (forall df1 df2 : DataFrame,
     values df1 = values df2 -> exported df1 = exported df2) /\
  (forall cols1 cols2 cols rows1 rows2,
     exported (mkDataFrame cols (rows1 ++ rows2))
     = exported (mkDataFrame cols1 rows1)
       +:+ exported (mkDataFrame cols2 rows2)).
Proof.
  assert (Hvalues : forall df : DataFrame,
            exported df = csv_text (map (map float_repr) (values df))).
  { intros df. unfold exported, csv_records, values. simpl.
    by rewrite map_map. }
  split.
  - intros df1 df2 Heq. by rewrite !Hvalues, Heq.
  - intros cols1 cols2 cols rows1 rows2. rewrite !Hvalues. unfold values.
    cbn [rows]. by rewrite fmap_app, map_app, csv_text_app.
Qed.

(** *** The whole run *)

(** X11: for a dataset of the Iris shape the frame of cell 3 has shape
    (150, 5) and the shapes cell 4 prints are (120, 5), (15, 5) and
    (15, 5). *)
Theorem iris_partition_shapes (w : World) :
  is_iris_shaped load_iris = true ->
  exists df tr va te,
    data = inr df /\ shape df = (150%nat, 5%nat) /\
    split_cell df w = (inr (tr, va, te), w) /\
    shape tr = (120%nat, 5%nat) /\
    shape va = (15%nat, 5%nat) /\
    shape te = (15%nat, 5%nat).
Proof using rng_permutation_perm.
  intros Hshape.
  destruct (data_of_iris Hshape) as (df & Hdata & Hcols & Hlen & _).
  assert (Hwidth : length (columns df) = 5%nat).
  { rewrite Hcols, length_app. unfold iris. cbn [length].
    revert Hshape. unfold is_iris_shaped. rewrite !andb_true_iff.
    intros (_ & Hnames). apply Nat.eqb_eq in Hnames. lia. }
  destruct (split_cell_value_150 rng_permutation_perm df Hlen)
    as (tr & va & te & Hsplit & Htr & Hva & Hte).
  exists df, tr, va, te.
  apply split_cell_value_inr in Hsplit as Hparts.
  destruct Hparts as (held_out & H1 & H2).
  apply seeded_split_parts in H1 as (_ & _ & Hctr & Hcheld).
  apply seeded_split_parts in H2 as (_ & _ & Hcva & Hcte).
  unfold shape.
  rewrite (pure_split_cell df w), Hsplit, Htr, Hva, Hte, Hlen.
  rewrite Hctr, Hcva, Hcte, Hcheld, Hwidth. done.
Qed.

(** *** Cells 8 and 9 *)

(** X10: whatever the bucket, the output path of the job definition is
    [s3://bucket/DEMO-iris-hpo-xgboost/output]; nothing under it falls under
    the URI of an input channel, and the two uploaded objects are not under
    it. *)
Theorem output_path_apart_from_inputs (suffix : string) :
  let output := object_uri bucket (prefix +:+ "/output") in
  getpath ["OutputDataConfig"; "S3OutputPath"] training_job_definition
    = Some (PStr output) /\
  String.prefix s3_input_train (output +:+ suffix) = false /\
  String.prefix s3_input_validation (output +:+ suffix) = false /\
  String.prefix output (object_uri bucket train_key) = false /\
  String.prefix output (object_uri bucket validation_key) = false.
Proof.
  split; [reflexivity|].
  unfold s3_input_train, s3_input_validation, object_uri.
  rewrite !string_app_assoc, !string_prefix_app. done.
Qed.

End Further.

(** ** The sample run *)

Section SampleRun.

Local Existing Instance Sample.environment.

Lemma sample_permutation_perm (st : RandomState) (n : nat) :
  (rng_permutation st n).1 ≡ₚ seq 0 n.
Proof.
  unfold rng_permutation, Sample.environment, Sample.permutation; simpl.
  rewrite <- Permutation_rev, Permutation_app_comm.
  by rewrite take_drop.
Qed.

(** Without a seed the split reads numpy's global generator: two worlds
    that differ in it give different parts. *)
Lemma unseeded_split_depends_on_generator :
  (train_test_split Sample.frame Float64.lit_0_2 None Sample.world).1
  <> (train_test_split Sample.frame Float64.lit_0_2 None
        (mkWorld 3%nat ∅ ∅ [])).1.
Proof. vm_compute. discriminate. Qed.

Lemma sample_is_iris_shaped : is_iris_shaped load_iris = true.
Proof. vm_compute. reflexivity. Qed.

Lemma sample_data : data = inr Sample.iris_frame.
Proof. vm_compute. reflexivity. Qed.

Lemma iris_partition_sizes_witness :
  is_iris_shaped load_iris = true /\
  exists df tr va te : DataFrame,
    data = inr df /\
    split_cell df Sample.world = (inr (tr, va, te), Sample.world) /\
    length (rows tr) = 120%nat /\
    length (rows va) = 15%nat /\
    length (rows te) = 15%nat.
Proof.
  split; [vm_compute; reflexivity|].
  destruct (iris_partition_sizes sample_permutation_perm Sample.world)
    as (df & tr & va & te & Hdata & _ & Hsplit & Htr & Hva & Hte & _);
    [vm_compute; reflexivity|].
  exists df, tr, va, te. repeat split; assumption.
Defined.

Lemma split_is_80_10_10_not_60_20_20_witness :
  (6 <= length (rows Sample.iris_frame) <= 2000)%nat /\
  exists tr va te : DataFrame,
    split_cell Sample.iris_frame Sample.world
      = (inr (tr, va, te), Sample.world) /\
    length (rows tr) = 120%nat /\
    length (rows va) = 15%nat /\
    length (rows te) = 15%nat /\
    length (rows tr) <> 90%nat /\
    length (rows va) <> 30%nat /\
    length (rows te) <> 30%nat.
Proof.
  assert (Hlen : length (rows Sample.iris_frame) = 150%nat)
    by (vm_compute; reflexivity).
  assert (Hn : (6 <= length (rows Sample.iris_frame) <= 2000)%nat)
    by (rewrite Hlen; lia).
  split; [exact Hn|].
  destruct (split_is_80_10_10_not_60_20_20 sample_permutation_perm
              Sample.iris_frame Sample.world Hn)
    as (tr & va & te & Hsplit & Htr & Hva & Hte & _).
  rewrite Hlen in Htr, Hva, Hte.
  exists tr, va, te. rewrite Htr, Hva, Hte.
  repeat split; try assumption; try reflexivity; discriminate.
Defined.

Lemma partitions_disjoint_and_cover_witness :
  NoDup (index Sample.frame) /\
  (split_cell Sample.frame Sample.world).1
    = inr (Sample.parts.1.1, Sample.parts.1.2, Sample.parts.2) /\
  (forall i, i ∈ index Sample.parts.1.1 -> i ∉ index Sample.parts.1.2) /\
  (forall i, i ∈ index Sample.parts.1.1 -> i ∉ index Sample.parts.2) /\
  (forall i, i ∈ index Sample.parts.1.2 -> i ∉ index Sample.parts.2) /\
  rows Sample.parts.1.1 ++ rows Sample.parts.1.2 ++ rows Sample.parts.2
    ≡ₚ rows Sample.frame /\
  (length (rows Sample.parts.1.1) + length (rows Sample.parts.1.2) +
   length (rows Sample.parts.2) = length (rows Sample.frame))%nat.
Proof.
  assert (Hnodup : NoDup (index Sample.frame))
    by (refine (bool_decide_unpack _ _); vm_compute; exact I).
  assert (Hsplit : (split_cell Sample.frame Sample.world).1
                   = inr (Sample.parts.1.1, Sample.parts.1.2, Sample.parts.2))
    by (vm_compute; reflexivity).
  split; [exact Hnodup|]. split; [exact Hsplit|].
  exact (partitions_disjoint_and_cover sample_permutation_perm
           _ _ _ _ _ Hnodup Hsplit).
Defined.

Lemma job_configuration_witness :
  exists w' : World,
    upload_cell Sample.parts.1.1 Sample.parts.1.2 Sample.world
      = (inr tt, w') /\
    getpath ["InputDataConfig"] training_job_definition
      = Some (PList [
          PDict [
            ("ChannelName", PStr "train");
            ("CompressionType", PStr "None");
            ("ContentType", PStr "csv");
            ("DataSource", PDict [
               ("S3DataSource", PDict [
                  ("S3DataDistributionType", PStr "FullyReplicated");
                  ("S3DataType", PStr "S3Prefix");
                  ("S3Uri",
                   PStr ("s3://sagemaker-us-east-1-123456789012/" +:+
                         "DEMO-iris-hpo-xgboost/train"))])])];
          PDict [
            ("ChannelName", PStr "validation");
            ("CompressionType", PStr "None");
            ("ContentType", PStr "csv");
            ("DataSource", PDict [
               ("S3DataSource", PDict [
                  ("S3DataDistributionType", PStr "FullyReplicated");
                  ("S3DataType", PStr "S3Prefix");
                  ("S3Uri",
                   PStr ("s3://sagemaker-us-east-1-123456789012/" +:+
                         "DEMO-iris-hpo-xgboost/validation/"))])])]]) /\
    s3 w' !! ("sagemaker-us-east-1-123456789012",
              "DEMO-iris-hpo-xgboost/train/train.csv")
      = Some (exported Sample.parts.1.1) /\
    s3 w' !! ("sagemaker-us-east-1-123456789012",
              "DEMO-iris-hpo-xgboost/validation/validation.csv")
      = Some (exported Sample.parts.1.2).
Proof.
  pose proof (upload_cell_run Sample.parts.1.1 Sample.parts.1.2 Sample.world)
    as Hrun.
  eexists. split; [exact Hrun|]. split; [reflexivity|].
  destruct (job_configuration _ _ _ _ Hrun)
    as (_ & _ & _ & (_ & _ & _ & _ & Htrain & Hvalidation & _) & _).
  split; [exact Htrain|exact Hvalidation].
Defined.



End SampleRun.

(** ** Further sample runs *)

Lemma small_permutation_perm (b : Bunch) (st : nat) (n : nat) :
  (Sample.permutation st n).1 ≡ₚ seq 0 n.
Proof.
  unfold Sample.permutation; simpl.
  rewrite <- Permutation_rev, Permutation_app_comm.
  by rewrite take_drop.
Qed.

Section FurtherSampleRun.

Local Existing Instance Sample.environment.

Lemma split_cell_raises_iff_too_few_rows_witness :
  (length (rows SampleSmall.frame5) <= 2000)%nat /\
  (length (rows SampleSmall.frame5) < 6)%nat /\
  split_cell SampleSmall.frame5 Sample.world
    = (inl ValueError, Sample.world).
Proof.
  assert (Hmax : (length (rows SampleSmall.frame5) <= 2000)%nat)
    by (vm_compute; lia).
  assert (Hlt : (length (rows SampleSmall.frame5) < 6)%nat)
    by (vm_compute; lia).
  split; [exact Hmax|]. split; [exact Hlt|].
  exact (proj2 (split_cell_raises_iff_too_few_rows sample_permutation_perm
                  SampleSmall.frame5 Sample.world Hmax) Hlt).
Defined.

Lemma partitions_nonempty_same_columns_witness :
  (split_cell Sample.frame Sample.world).1
    = inr (Sample.parts.1.1, Sample.parts.1.2, Sample.parts.2) /\
  (0 < length (rows Sample.parts.1.1))%nat /\
  columns Sample.parts.1.1 = columns Sample.frame.
Proof.
  assert (Hsplit : (split_cell Sample.frame Sample.world).1
                   = inr (Sample.parts.1.1, Sample.parts.1.2, Sample.parts.2))
    by (vm_compute; reflexivity).
  split; [exact Hsplit|].
  destruct (partitions_nonempty_same_columns sample_permutation_perm
              _ _ _ _ _ Hsplit) as ((Htr & _) & (Hcols & _) & _).
  split; assumption.
Defined.

Lemma upload_cell_footprint_witness :
  exists w' : World,
    upload_cell Sample.parts.1.1 Sample.parts.1.2 Sample.world
      = (inr tt, w') /\
    files w' !! "train.csv" = Some (exported Sample.parts.1.1) /\
    s3 w' !! (bucket, train_key) = Some (exported Sample.parts.1.1) /\
    files w' !! "test.csv" = None /\
    requests w' = [].
Proof.
  pose proof (upload_cell_run Sample.parts.1.1 Sample.parts.1.2 Sample.world)
    as Hrun.
  eexists. split; [exact Hrun|].
  destruct (upload_cell_footprint _ _ _ _ Hrun)
    as (Hfile & _ & Hobject & _ & Hfiles & _ & Hrequests & _).
  split; [exact Hfile|]. split; [by rewrite Hobject|].
  split; [by rewrite Hfiles|exact Hrequests].
Defined.

Lemma iris_partition_shapes_witness :
  is_iris_shaped load_iris = true /\
  exists df tr va te,
    data = inr df /\
    split_cell df Sample.world = (inr (tr, va, te), Sample.world) /\
    shape tr = (120%nat, 5%nat) /\
    shape va = (15%nat, 5%nat) /\
    shape te = (15%nat, 5%nat).
Proof.
  split; [vm_compute; reflexivity|].
  destruct (iris_partition_shapes sample_permutation_perm Sample.world)
    as (df & tr & va & te & Hdata & _ & Hsplit & Htr & Hva & Hte);
    [vm_compute; reflexivity|].
  exists df, tr, va, te. repeat split; assumption.
Defined.

End FurtherSampleRun.

Section SampleSeven.

Local Existing Instance SampleSmall.seven_env.

Lemma data_of_well_formed_dataset_witness :
  bunch_shape_ok load_iris = true /\ labels_convert load_iris = true /\
  bunch_data load_iris <> [] /\
  exists df,
    data = inr df /\ shape df = (7%nat, 5%nat) /\
    index df = seq 0 7 /\
    rows df !! 2%nat
      = Some (2%nat,
              Sample.virginica ++ [Sample.double 4503599627370496 (-51)]).
Proof.
  split; [vm_compute; reflexivity|]. split; [vm_compute; reflexivity|].
  split; [discriminate|].
  destruct (data_of_well_formed_dataset (env := SampleSmall.seven_env))
    as (df & Hdata & Hshape & _ & Hindex & Hrows);
    [vm_compute; reflexivity..|discriminate|].
  exists df. repeat split; try assumption.
  destruct (Hrows 2%nat Sample.virginica 2) as (y & Hy & Hrow);
    [reflexivity..|].
  vm_compute in Hy. injection Hy as <-. exact Hrow.
Defined.

End SampleSeven.

Section SampleMismatched.

Local Existing Instance SampleSmall.mismatched_env.

Lemma malformed_dataset_raises_witness :
  labels_convert load_iris = true /\ bunch_shape_ok load_iris = false /\
  data = inl ValueError /\
  notebook (SampleSmall.world SampleSmall.mismatched)
    = (inl ValueError, SampleSmall.world SampleSmall.mismatched).
Proof.
  split; [vm_compute; reflexivity|]. split; [vm_compute; reflexivity|].
  apply (malformed_dataset_raises (env := SampleSmall.mismatched_env));
    vm_compute; reflexivity.
Defined.

End SampleMismatched.

Section SampleFive.

Local Existing Instance SampleSmall.five_env.

Lemma too_few_samples_abort_witness :
  bunch_shape_ok load_iris = true /\ labels_convert load_iris = true /\
  (0 < length (bunch_data iris) < 6)%nat /\
  notebook (SampleSmall.world SampleSmall.five)
    = (inl ValueError, SampleSmall.world SampleSmall.five).
Proof.
  assert (Hlt : (0 < length (bunch_data iris) < 6)%nat) by (vm_compute; lia).
  split; [vm_compute; reflexivity|]. split; [vm_compute; reflexivity|].
  split; [exact Hlt|].
  apply (too_few_samples_abort (env := SampleSmall.five_env)
           (small_permutation_perm SampleSmall.five)
           (SampleSmall.world SampleSmall.five));
    [vm_compute; reflexivity..|exact Hlt].
Defined.

End SampleFive.

(** ** The sample run with Python's text of a double *)

(** The text of the sample's doubles is what Python writes, and reads back
    as them. *)
Lemma sample_table_python :
  Forall (fun p : spec_float * string =>
            PyFloat.repr p.1 = p.2 /\ PyFloat.float p.2 = Some p.1)
         Sample.table.
Proof. refine (bool_decide_unpack _ _). vm_compute. exact I. Qed.

(** Doubles that need seventeen digits or an exponent, the least positive
    double, and numerals that round to a neighbour, overflow, underflow or
    are not numerals. *)
Lemma python_text_examples :
  PyFloat.repr (S754_finite false 5404319552844596 (-54))
    = "0.30000000000000004" /\
  PyFloat.repr (S754_finite true 6646139978924579 (-3))
    = "-830767497365572.4" /\
  PyFloat.repr (S754_finite false 7378697629483821 (-66)) = "0.0001" /\
  PyFloat.repr (S754_finite false 5902958103587057 (-66)) = "8e-05" /\
  PyFloat.repr (S754_finite false 5000000000000000 1) = "1e+16" /\
  PyFloat.repr (S754_finite false 7716049313271605 4)
    = "1.2345678901234568e+17" /\
  PyFloat.repr (S754_finite false 1 (-1074)) = "5e-324" /\
  PyFloat.float "1e23" = Some (S754_finite false 5960464477539062 24) /\
  PyFloat.float "1.7976931348623159e308" = Some (S754_infinity false) /\
  PyFloat.float "2.4703282292062327e-324" = Some (S754_zero false) /\
  PyFloat.float "1,5" = None.
Proof. vm_compute. repeat split. Qed.

Section SamplePythonRun.

Local Existing Instance SamplePython.environment.


End SamplePythonRun.
